(** * Cleo: latency-bearing processing blocks and the IO scheduler

    A shallow embedding of [cleosim/processing/base.py]:
    [ProcessingBlock] (a transform wrapped with a compute delay and an optional
    history) and [LatencyIOProcessor] (sampling policy, processing policy and
    the FIFO output buffer).

    Conventions of the embedding.
    - Times are Python numbers; they are modelled as exact rationals [Q]
      (rounding of binary floating point is not modelled).  [%] is Python's
      floored modulo and raises [ZeroDivisionError] on a zero divisor.
      Where a method only compares times this loses nothing.  The one line
      that adds and subtracts times, in the "serial" branch of [put_state],
      rounds in the code: it is rendered on binary64 in [put_state64].
    - A method is a function in a state-and-exception monad over the object it
      mutates: the object is returned also when the method raises, because a
      Python object keeps the mutations made before the exception.
    - An attribute that [__init__] may leave unset is an [option]; reading it
      while unset raises [AttributeError].
    - Keyword arguments are a finite map from names to Python values. *)

From Stdlib Require Import PrimFloat.
From Stdlib Require Import QArith Qround Qabs Lia Lqa.
From stdpp Require Import gmap strings list.

Local Open Scope string_scope.
Local Open Scope list_scope.
Local Open Scope Q_scope.

Set Warnings "-inexact-float".

(** ** Exceptions and the method monad *)

Inductive exn : Type :=
  | TypeError (msg : string)
  | ValueError (msg : string)
  | AttributeError (attr : string)
  | KeyError (key : string)
  | IndexError
  | ZeroDivisionError
  | UserException (msg : string).

Inductive result (A : Type) : Type :=
  | Ok (a : A)
  | Raise (e : exn).
Arguments Ok {A} a.
Arguments Raise {A} e.

(** A method on an object of type [S] returning an [A]. *)
Definition M (S A : Type) : Type := S -> result A * S.

Definition ret {S A : Type} (a : A) : M S A := fun s => (Ok a, s).

Definition bind {S A B : Type} (m : M S A) (k : A -> M S B) : M S B :=
  fun s =>
    match m s with
    | (Ok a, s') => k a s'
    | (Raise e, s') => (Raise e, s')
    end.

Definition raise {S A : Type} (e : exn) : M S A := fun s => (Raise e, s).

Definition get {S : Type} : M S S := fun s => (Ok s, s).

Definition modify {S : Type} (f : S -> S) : M S unit := fun s => (Ok tt, f s).

(** Lift a pure fallible computation. *)
Definition lift {S A : Type} (r : result A) : M S A := fun s => (r, s).

Declare Scope method_scope.
Delimit Scope method_scope with method.
Notation "x <- m ;; k" := (bind m (fun x => k))
  (at level 100, m at next level, right associativity) : method_scope.
Notation "m ;; k" := (bind m (fun _ => k))
  (at level 100, right associativity) : method_scope.

(** ** Python numbers *)

(** [a % b] on Python numbers: the remainder has the sign of the divisor;
    a zero divisor raises.  The value is the exact one.  On floats of the
    same sign Python's result is exact too; on floats of opposite signs
    Python adds the divisor to an exact remainder and that addition
    rounds, so the result can equal the divisor. *)
Definition floor_mod (a b : Q) : Q := a - b * inject_Z (Qfloor (a / b)).

Definition py_mod (a b : Q) : result Q :=
  if Qeq_bool b 0 then Raise ZeroDivisionError else Ok (floor_mod a b).

(** [numpy.isclose(a, b)] with the library's default tolerances
    [rtol = 1e-05] and [atol = 1e-08]: [|a - b| <= atol + rtol * |b|]. *)
Definition rtol : Q := 1 # 100000.
Definition atol : Q := 1 # 100000000.

Definition isclose (a b : Q) : bool :=
  Qle_bool (Qabs (a - b)) (atol + rtol * Qabs b).

(** ** Delays and Python values *)

Section Model.

(** The source of randomness a delay may draw from. *)
Context {Rng : Type}.

(** Modelled from the spec: the [Delay] class of [cleosim.processing.delays]
    is not among the sources.  Its contract is [compute() -> duration],
    called once per processing event; a constant delay returns its fixed
    value, a randomised one makes an independent draw. *)
Record Delay : Type := { compute : Rng -> Q * Rng }.

Definition ConstantDelay (delay_ms : Q) : Delay :=
  {| compute := fun g => (delay_ms, g) |}.

(** The Python values that reach the constructors as keyword arguments. *)
Inductive pyobj : Type :=
  | PyNone
  | PyBool (b : bool)
  | PyFloat (q : Q)
  | PyStr (s : string)
  | PyDelay (d : Delay).

(** [isinstance(o, Delay)] *)
Definition isinstance_Delay (o : pyobj) : bool :=
  match o with PyDelay _ => true | _ => false end.

(** [o is True] *)
Definition is_True (o : pyobj) : bool :=
  match o with PyBool true => true | _ => false end.

(** [o is not None] *)
Definition is_not_None (o : pyobj) : bool :=
  match o with PyNone => false | _ => true end.

(** Truth value of [o] in an [if]. *)
Definition truthy (o : pyobj) : bool :=
  match o with
  | PyNone => false
  | PyBool b => b
  | PyFloat q => negb (Qeq_bool q 0)
  | PyStr s => negb (String.eqb s EmptyString)
  | PyDelay _ => true
  end.

(** [o == s] for a string literal [s]. *)
Definition py_eq_str (o : pyobj) (s : string) : bool :=
  match o with PyStr s' => String.eqb s' s | _ => false end.

(** [o in strs] for a list of string literals. *)
Definition py_in_strs (o : pyobj) (strs : list string) : bool :=
  existsb (py_eq_str o) strs.

(** [kwargs.get(key, default)] *)
Definition kwargs_get (kwargs : gmap string pyobj) (key : string)
    (default : pyobj) : pyobj :=
  match kwargs !! key with Some v => v | None => default end.

(** ** ProcessingBlock *)

Section ProcessingBlock.

Context {Input Output : Type}.

(** The abstract method [_process], taking the input and keyword
    arguments, supplied by the subclass: a transform that may raise. *)
Class ProcessingBlockImpl : Type :=
  { _process : Input -> gmap string pyobj -> result Output }.

Context {block_impl : ProcessingBlockImpl}.

(** The attributes of a block.  [t], [out_t] and [values] exist only when
    [__init__] created them. *)
Record ProcessingBlock : Type := {
  delay : pyobj;
  save_history : pyobj;
  t : option (list Q);
  out_t : option (list Q);
  values : option (list Output);
}.

(** [ProcessingBlock.__init__], taking keyword arguments *)
Definition ProcessingBlock_init (kwargs : gmap string pyobj)
    : result ProcessingBlock :=
  let delay := kwargs_get kwargs "delay" PyNone in
  if negb (isinstance_Delay delay) then
    Raise (TypeError "delay must be of the Delay class")
  else
    let save_history := kwargs_get kwargs "save_history" (PyBool false) in
    if is_True save_history then
      Ok {| delay := delay; save_history := save_history;
            t := Some []; out_t := Some []; values := Some [] |}
    else
      Ok {| delay := delay; save_history := save_history;
            t := None; out_t := None; values := None |}.

(** What [process] runs on: the block and the randomness its delay draws
    from. *)
Record BlockWorld : Type := { self_block : ProcessingBlock; rng : Rng }.

Definition with_block (f : ProcessingBlock -> ProcessingBlock)
    (w : BlockWorld) : BlockWorld :=
  {| self_block := f (self_block w); rng := rng w |}.

(** [self.delay.compute()] *)
Definition delay_compute : M BlockWorld Q :=
  fun w =>
    match delay (self_block w) with
    | PyDelay d =>
        let '(d_ms, g) := compute d (rng w) in
        (Ok d_ms, {| self_block := self_block w; rng := g |})
    | _ => (Raise (AttributeError "compute"), w)
    end.

(** [self.t.append(x)], [self.out_t.append(x)], [self.values.append(x)] *)
Definition t_append (x : Q) : M BlockWorld unit :=
  fun w =>
    match t (self_block w) with
    | Some l =>
        (Ok tt, with_block (fun b =>
           {| delay := delay b; save_history := save_history b;
              t := Some (l ++ [x]); out_t := out_t b; values := values b |}) w)
    | None => (Raise (AttributeError "t"), w)
    end.

Definition out_t_append (x : Q) : M BlockWorld unit :=
  fun w =>
    match out_t (self_block w) with
    | Some l =>
        (Ok tt, with_block (fun b =>
           {| delay := delay b; save_history := save_history b;
              t := t b; out_t := Some (l ++ [x]); values := values b |}) w)
    | None => (Raise (AttributeError "out_t"), w)
    end.

Definition values_append (x : Output) : M BlockWorld unit :=
  fun w =>
    match values (self_block w) with
    | Some l =>
        (Ok tt, with_block (fun b =>
           {| delay := delay b; save_history := save_history b;
              t := t b; out_t := out_t b; values := Some (l ++ [x]) |}) w)
    | None => (Raise (AttributeError "values"), w)
    end.

(** [ProcessingBlock.process(input, in_time_ms)], with its keyword arguments *)
Definition process_block (input : Input) (in_time_ms : Q)
    (kwargs : gmap string pyobj) : M BlockWorld (Output * Q) :=
  (out <- lift (_process input kwargs) ;;
   self <- get ;;
   out_time_ms <-
     (if is_not_None (delay (self_block self)) then
        d <- delay_compute ;; ret (in_time_ms + d)
      else ret in_time_ms) ;;
   (if truthy (save_history (self_block self)) then
      t_append in_time_ms ;;
      out_t_append out_time_ms ;;
      values_append out
    else ret tt) ;;
   ret (out, out_time_ms))%method.

(** A sequence of [process] calls; a call that raises ends the sequence.
    Returns what the calls that returned have returned, in order. *)
Fixpoint process_calls (calls : list (Input * Q * gmap string pyobj))
    (w : BlockWorld) : list (Output * Q) * BlockWorld :=
  match calls with
  | [] => ([], w)
  | (input, in_time_ms, kwargs) :: calls' =>
      match process_block input in_time_ms kwargs w with
      | (Ok r, w') =>
          let '(rs, w'') := process_calls calls' w' in (r :: rs, w'')
      | (Raise _, w') => ([], w')
      end
  end.

(** The history lists exist whenever [process] is going to append to them. *)
Definition history_ready (b : ProcessingBlock) : Prop :=
  truthy (save_history b) = true ->
  exists l1 l2 l3, t b = Some l1 /\ out_t b = Some l2 /\ values b = Some l3.

(** The transform returns on the inputs of every call. *)
Definition transform_returns
    (calls : list (Input * Q * gmap string pyobj)) : Prop :=
  Forall (fun c => exists out, _process (fst (fst c)) (snd c) = Ok out) calls.

(** A sequence of [process] calls whose caller catches what a call
    raises and goes on with the next one. *)
Definition after_process_calls
    (calls : list (Input * Q * gmap string pyobj)) (w : BlockWorld)
    : BlockWorld :=
  fold_left
    (fun w c => snd (process_block (fst (fst c)) (snd (fst c)) (snd c) w))
    calls w.

(** The three history lists exist and have the same length. *)
Definition history_aligned (b : ProcessingBlock) : Prop :=
  exists l1 l2 l3,
    t b = Some l1 /\ out_t b = Some l2 /\ values b = Some l3
    /\ length l1 = length l2 /\ length l2 = length l3.

End ProcessingBlock.

(** ** LatencyIOProcessor *)

Section LatencyIOProcessor.

(** The sampled state, the control signal, and the attributes a subclass
    adds to the processor (its blocks, the randomness they draw from). *)
Context {StateDict CtrlSignal U : Type}.

(** The abstract method [process(state_dict, sample_time_ms)], supplied by
    the subclass.  It returns the output and its output time, or raises; it
    runs on the subclass's own attributes. *)
Class LatencyIOProcessorImpl : Type :=
  { process : StateDict -> Q -> M U (CtrlSignal * Q) }.

Context {io_impl : LatencyIOProcessorImpl}.

(** The attributes of a processor.  [_needs_off_schedule_sample] is not
    assigned by [__init__]; it exists once [put_state] or the on-schedule
    branch of [is_sampling_now] has assigned it. *)
Record LatencyIOProcessor : Type := {
  out_buffer : list (CtrlSignal * Q);
  sample_period_ms : Q;
  sampling : pyobj;
  processing : pyobj;
  _needs_off_schedule_sample : option bool;
  subclass : U;
}.

(** [LatencyIOProcessor.__init__(sample_period_ms)], with its keyword
    arguments; [u] holds the attributes the subclass constructor adds. *)
Definition LatencyIOProcessor_init (sample_period_ms : Q)
    (kwargs : gmap string pyobj) (u : U) : result LatencyIOProcessor :=
  let sampling := kwargs_get kwargs "sampling" (PyStr "fixed") in
  if negb (py_in_strs sampling ["fixed"; "when idle"]) then
    Raise (ValueError "Invalid sampling scheme:")
  else
    let processing := kwargs_get kwargs "processing" (PyStr "parallel") in
    if negb (py_in_strs processing ["serial"; "parallel"]) then
      Raise (ValueError "Invalid processing scheme:")
    else
      Ok {| out_buffer := []; sample_period_ms := sample_period_ms;
            sampling := sampling; processing := processing;
            _needs_off_schedule_sample := None; subclass := u |}.

Definition set_out_buffer (b : list (CtrlSignal * Q))
    (self : LatencyIOProcessor) : LatencyIOProcessor :=
  {| out_buffer := b; sample_period_ms := sample_period_ms self;
     sampling := sampling self; processing := processing self;
     _needs_off_schedule_sample := _needs_off_schedule_sample self;
     subclass := subclass self |}.

Definition set_needs_off_schedule_sample (f : bool)
    (self : LatencyIOProcessor) : LatencyIOProcessor :=
  {| out_buffer := out_buffer self; sample_period_ms := sample_period_ms self;
     sampling := sampling self; processing := processing self;
     _needs_off_schedule_sample := Some f;
     subclass := subclass self |}.

Definition set_subclass (u : U)
    (self : LatencyIOProcessor) : LatencyIOProcessor :=
  {| out_buffer := out_buffer self; sample_period_ms := sample_period_ms self;
     sampling := sampling self; processing := processing self;
     _needs_off_schedule_sample := _needs_off_schedule_sample self;
     subclass := u |}.

(** [self.process(state_dict, sample_time_ms)] *)
Definition call_process (state_dict : StateDict) (sample_time_ms : Q)
    : M LatencyIOProcessor (CtrlSignal * Q) :=
  fun self =>
    let '(r, u) := process state_dict sample_time_ms (subclass self) in
    (r, set_subclass u self).

(** [self.out_buffer[-1][1]] *)
Definition last_out_time : M LatencyIOProcessor Q :=
  fun self =>
    match last (out_buffer self) with
    | Some (_, prev_out_time_ms) => (Ok prev_out_time_ms, self)
    | None => (Raise IndexError, self)
    end.

(** [LatencyIOProcessor.put_state(state_dict, sample_time_ms)].  The
    output time of the "serial" branch is the exact value here; on floats
    each of its two operations rounds, see [put_state64]. *)
Definition put_state (state_dict : StateDict) (sample_time_ms : Q)
    : M LatencyIOProcessor unit :=
  (r <- call_process state_dict sample_time_ms ;;
   let '(out, out_time_ms) := r in
   self <- get ;;
   out_time_ms <-
     (if py_eq_str (processing self) "serial"
         && (0 <? length (out_buffer self))%nat then
        prev_out_time_ms <- last_out_time ;;
        ret (prev_out_time_ms + out_time_ms - sample_time_ms)
      else ret out_time_ms) ;;
   modify (fun self =>
     set_out_buffer (out_buffer self ++ [(out, out_time_ms)]) self) ;;
   modify (set_needs_off_schedule_sample false))%method.

(** [LatencyIOProcessor.get_ctrl_signal(query_time_ms)]; the Python [None]
    it returns when nothing is released is the [None] of [option]. *)
Definition get_ctrl_signal (query_time_ms : Q)
    : M LatencyIOProcessor (option CtrlSignal) :=
  (self <- get ;;
   match out_buffer self with
   | [] => ret None
   | (next_out_signal, next_out_time_ms) :: rest =>
       if Qle_bool next_out_time_ms query_time_ms then
         modify (set_out_buffer rest) ;;
         ret (Some next_out_signal)
       else ret None
   end)%method.

(** [LatencyIOProcessor._is_currently_idle(query_time_ms)] *)
Definition _is_currently_idle (query_time_ms : Q)
    (self : LatencyIOProcessor) : bool :=
  match out_buffer self with
  | [] => true
  | (_, next_out_time_ms) :: _ => Qle_bool next_out_time_ms query_time_ms
  end.

(** Reading [self._needs_off_schedule_sample] *)
Definition get_needs_off_schedule_sample : M LatencyIOProcessor bool :=
  fun self =>
    match _needs_off_schedule_sample self with
    | Some f => (Ok f, self)
    | None => (Raise (AttributeError "_needs_off_schedule_sample"), self)
    end.

(** [LatencyIOProcessor.is_sampling_now(query_time_ms)] *)
Definition is_sampling_now (query_time_ms : Q)
    : M LatencyIOProcessor bool :=
  (self <- get ;;
   if py_eq_str (sampling self) "fixed" then
     r <- lift (py_mod query_time_ms (sample_period_ms self)) ;;
     if isclose r 0 then ret true else ret false
   else if py_eq_str (sampling self) "when idle" then
     r <- lift (py_mod query_time_ms (sample_period_ms self)) ;;
     if Qeq_bool r 0 then
       if _is_currently_idle query_time_ms self then
         modify (set_needs_off_schedule_sample false) ;;
         ret true
       else
         modify (set_needs_off_schedule_sample true) ;;
         ret false
     else
       f <- get_needs_off_schedule_sample ;;
       if f then ret (_is_currently_idle query_time_ms self) else ret false
   else ret false)%method.

(** *** Sequences of method calls *)

Inductive call : Type :=
  | CallPutState (state_dict : StateDict) (sample_time_ms : Q)
  | CallGetCtrlSignal (query_time_ms : Q)
  | CallIsSamplingNow (query_time_ms : Q).

(** The processor after one call, whether the call returned or raised. *)
Definition after_call (c : call) (self : LatencyIOProcessor)
    : LatencyIOProcessor :=
  match c with
  | CallPutState state_dict sample_time_ms =>
      snd (put_state state_dict sample_time_ms self)
  | CallGetCtrlSignal query_time_ms => snd (get_ctrl_signal query_time_ms self)
  | CallIsSamplingNow query_time_ms => snd (is_sampling_now query_time_ms self)
  end.

Definition after_calls (cs : list call) (self : LatencyIOProcessor)
    : LatencyIOProcessor :=
  fold_left (fun self c => after_call c self) cs self.

(** *** The simulation driver

    Modelled from the spec: the driver ([CLSimulator], in [cleosim.base]) is
    not among the sources.  Its data flow is: the driver asks
    [is_sampling_now(t)]; if true it pulls the state and calls
    [put_state(state, t)]; it repeatedly calls [get_ctrl_signal(t)].  The
    loop of [_test_DelayControlLoop] in the tests makes the same calls. *)
Inductive event : Type :=
  | Query (t : Q) (state_dict : StateDict)
  | Deliver (t : Q).

(** What a step of the driver shows: for a query, whether the time was on
    the sampling schedule, whether the processor was idle, and whether a
    sample was taken; for a delivery, the signal released. *)
Inductive obs : Type :=
  | OQuery (t : Q) (on_schedule idle sampled : bool)
  | ODeliver (t : Q) (signal : option CtrlSignal).

(** [query_time_ms % self.sample_period_ms == 0] *)
Definition on_schedule (query_time_ms : Q) (self : LatencyIOProcessor)
    : bool :=
  match py_mod query_time_ms (sample_period_ms self) with
  | Ok r => Qeq_bool r 0
  | Raise _ => false
  end.

Definition driver_step (ev : event) : M LatencyIOProcessor obs :=
  match ev with
  | Query t state_dict =>
      (self <- get ;;
       b <- is_sampling_now t ;;
       (if b then put_state state_dict t else ret tt) ;;
       ret (OQuery t (on_schedule t self) (_is_currently_idle t self) b))%method
  | Deliver t =>
      (o <- get_ctrl_signal t ;; ret (ODeliver t o))%method
  end.

(** Run the driver over a list of events.  An exception ends the
    simulation: the observations made so far, the exception if any, and the
    processor as it was left. *)
Fixpoint run (evs : list event) (self : LatencyIOProcessor)
    : list obs * option exn * LatencyIOProcessor :=
  match evs with
  | [] => ([], None, self)
  | ev :: evs' =>
      match driver_step ev self with
      | (Ok o, self') =>
          let '(os, e, self'') := run evs' self' in (o :: os, e, self'')
      | (Raise e, self') => ([], Some e, self')
      end
  end.

(** A scheduled sample deferred because the processor was busy. *)
Definition is_deferral (o : obs) : bool :=
  match o with
  | OQuery _ on_sched idle _ => on_sched && negb idle
  | ODeliver _ _ => false
  end.

(** A sample taken off the schedule, to catch up a deferred one. *)
Definition is_catch_up (o : obs) : bool :=
  match o with
  | OQuery _ on_sched _ sampled => negb on_sched && sampled
  | ODeliver _ _ => false
  end.

Definition is_sample (o : obs) : bool :=
  match o with
  | OQuery _ _ _ sampled => sampled
  | ODeliver _ _ => false
  end.

(** The queries of [evs] all find the processor busy. *)
Fixpoint busy_at_queries (evs : list event) (self : LatencyIOProcessor)
    : bool :=
  match evs with
  | [] => true
  | ev :: evs' =>
      match ev with
      | Query t _ => negb (_is_currently_idle t self)
      | Deliver _ => true
      end && busy_at_queries evs' (snd (driver_step ev self))
  end.

(** The signals a sequence of calls hands out, in order. *)
Fixpoint delivered (cs : list call) (self : LatencyIOProcessor)
    : list CtrlSignal :=
  match cs with
  | [] => []
  | c :: cs' =>
      match c with
      | CallGetCtrlSignal query_time_ms =>
          match fst (get_ctrl_signal query_time_ms self) with
          | Ok (Some out) => [out]
          | _ => []
          end
      | _ => []
      end ++ delivered cs' (after_call c self)
  end.

(** The outputs [process] returns to the [put_state] calls of a sequence,
    in order. *)
Fixpoint ingested (cs : list call) (self : LatencyIOProcessor)
    : list CtrlSignal :=
  match cs with
  | [] => []
  | c :: cs' =>
      match c with
      | CallPutState state_dict sample_time_ms =>
          match fst (process state_dict sample_time_ms (subclass self)) with
          | Ok (out, _) => [out]
          | Raise _ => []
          end
      | _ => []
      end ++ ingested cs' (after_call c self)
  end.

(** The driver of the control-loop tests: at each time a query, then a
    delivery at the same time. *)
Definition query_deliver (steps : list (Q * StateDict)) : list event :=
  flat_map (fun step => [Query (fst step) (snd step); Deliver (fst step)])
    steps.

(** Whether a sample was taken, for each query observed. *)
Definition samples_of (os : list obs) : list bool :=
  omap (fun o => match o with
                 | OQuery _ _ _ sampled => Some sampled
                 | ODeliver _ _ => None
                 end) os.

(** What was released, for each delivery observed. *)
Definition deliveries_of (os : list obs) : list (option CtrlSignal) :=
  omap (fun o => match o with
                 | OQuery _ _ _ _ => None
                 | ODeliver _ signal => Some signal
                 end) os.


End LatencyIOProcessor.

End Model.

(** ** Concrete processors *)

(** [RecordOnlyProcessor]: takes samples without performing any control; its
    [process] returns an empty output at the sample time. *)
#[export] Instance RecordOnlyProcessor {Rng StateDict : Type}
    : LatencyIOProcessorImpl (StateDict := StateDict)
        (CtrlSignal := gmap string (@pyobj Rng)) (U := unit) :=
  {| process := fun _ sample_time_ms => ret (∅, sample_time_ms) |}.

(** The block of the control-loop tests: its transform adds the measurement
    time, passed as a keyword argument, to the input. *)
#[export] Instance MyLoopComponent
    : ProcessingBlockImpl (Rng := unit) (Input := Q) (Output := Q) :=
  {| _process := fun input kwargs =>
       match kwargs !! "measurement_time" with
       | Some (PyFloat measurement_time) => Ok (input + measurement_time)
       | Some _ => Raise (TypeError "unsupported operand type(s) for +")
       | None => Raise (KeyError "measurement_time")
       end |}.

(** The processor of the control-loop tests: one [MyLoopComponent] with a
    constant delay of 1.199 ms. *)
#[export] Instance MyDelayCL
    : LatencyIOProcessorImpl (StateDict := gmap string Q)
        (CtrlSignal := gmap string Q)
        (U := BlockWorld (Rng := unit) (Output := Q)) :=
  {| process := fun state_dict sample_time_ms =>
       match state_dict !! "in" with
       | None => raise (KeyError "in")
       | Some input =>
           (r <- process_block input sample_time_ms
                  {[ "measurement_time" := PyFloat sample_time_ms ]} ;;
            let '(out, out_t) := r in
            ret ({[ "out" := out ]}, out_t))%method
       end |}.

Definition MyDelayCL_delay : Q := 1199 # 1000.

Definition MyDelayCL_init (sampling_period_ms : Q)
    (kwargs : gmap string (@pyobj unit))
    : result (LatencyIOProcessor (CtrlSignal := gmap string Q)
                (U := BlockWorld (Rng := unit) (Output := Q))) :=
  match ProcessingBlock_init
          {[ "delay" := PyDelay (ConstantDelay MyDelayCL_delay) ]} with
  | Ok component =>
      LatencyIOProcessor_init sampling_period_ms kwargs
        {| self_block := component; rng := tt |}
  | Raise e => Raise e
  end.

(** The queries of the control-loop tests: at each time, ask whether to
    sample, ingest the input if so, then ask for the control signal. *)
Definition test_events (ts inputs : list Q)
    : list (event (StateDict := gmap string Q)) :=
  flat_map (fun '(t, input) => [Query t {[ "in" := input ]}; Deliver t])
    (zip ts inputs).

Definition test_times : list Q :=
  [0; 1; 12 # 10; 13 # 10; 2; 23 # 10; 24 # 10].

(** A [MyDelayCL] with period 1 ms and the given policies, as its
    constructor leaves it. *)
Definition MyDelayCL_new (sampling processing : string)
    : LatencyIOProcessor (Rng := unit) (CtrlSignal := gmap string Q)
        (U := BlockWorld (Rng := unit) (Output := Q)) :=
  {| out_buffer := []; sample_period_ms := 1;
     sampling := PyStr sampling; processing := PyStr processing;
     _needs_off_schedule_sample := None;
     subclass :=
       {| self_block :=
            {| delay := PyDelay (ConstantDelay MyDelayCL_delay);
               save_history := PyBool false;
               t := None; out_t := None; values := None |};
          rng := tt |} |}.

(** The same processor after it has sampled the input 42 at time 0: the
    output is due at 1.199 ms. *)
Definition after_first_sample (sampling processing : string)
    : LatencyIOProcessor (Rng := unit) (CtrlSignal := gmap string Q)
        (U := BlockWorld (Rng := unit) (Output := Q)) :=
  snd (put_state {[ "in" := 42 ]} 0 (MyDelayCL_new sampling processing)).

(** The block and the calls of the block test: a constant delay of 5 ms,
    history recorded, inputs 42 and -1 received at 2 ms and 9 ms. *)
Definition test_block_kwargs : gmap string (@pyobj unit) :=
  {[ "delay" := PyDelay (ConstantDelay 5); "save_history" := PyBool true ]}.

Definition test_block : ProcessingBlock (Rng := unit) (Output := Q) :=
  {| delay := PyDelay (ConstantDelay 5); save_history := PyBool true;
     t := Some []; out_t := Some []; values := Some [] |}.

Definition test_block_calls : list (Q * Q * gmap string (@pyobj unit)) :=
  [(42, 2, {[ "measurement_time" := PyFloat 1 ]});
   (-1, 9, {[ "measurement_time" := PyFloat 8 ]})].

(** What the driver observes, reduced to what the tests assert: whether a
    sample was taken at each query and the value released at each
    delivery. *)
Definition sampled_at (os : list (obs (CtrlSignal := gmap string Q)))
    : list bool :=
  omap (fun o => match o with
                 | OQuery _ _ _ sampled => Some sampled
                 | ODeliver _ _ => None
                 end) os.

Definition released_at (os : list (obs (CtrlSignal := gmap string Q)))
    : list (option Q) :=
  omap (fun o => match o with
                 | OQuery _ _ _ _ => None
                 | ODeliver _ signal =>
                     Some (match signal with
                           | Some d => d !! "out"
                           | None => None
                           end)
                 end) os.

(** * [put_state] on binary64 times

    [put_state] as Python runs it when the times are floats: the buffer
    holds binary64 output times and line 175 is two rounded operations,
    [(prev_out_time_ms + out_time_ms) - sample_time_ms]. *)

Section Binary64.

Context {Rng StateDict CtrlSignal U : Type}.

(** The abstract method [process] on float times. *)
Class LatencyIOProcessorImpl64 : Type :=
  { process64 : StateDict -> float -> M U (CtrlSignal * float) }.

Context {io_impl64 : LatencyIOProcessorImpl64}.

Record LatencyIOProcessor64 : Type := {
  out_buffer64 : list (CtrlSignal * float);
  sample_period_ms64 : float;
  sampling64 : @pyobj Rng;
  processing64 : @pyobj Rng;
  _needs_off_schedule_sample64 : option bool;
  subclass64 : U;
}.

(** [self.process(state_dict, sample_time_ms)] *)
Definition call_process64 (state_dict : StateDict) (sample_time_ms : float)
    : M LatencyIOProcessor64 (CtrlSignal * float) :=
  fun self =>
    let '(r, u) := process64 state_dict sample_time_ms (subclass64 self) in
    (r, {| out_buffer64 := out_buffer64 self;
           sample_period_ms64 := sample_period_ms64 self;
           sampling64 := sampling64 self; processing64 := processing64 self;
           _needs_off_schedule_sample64 := _needs_off_schedule_sample64 self;
           subclass64 := u |}).

(** [self.out_buffer[-1][1]] *)
Definition last_out_time64 : M LatencyIOProcessor64 float :=
  fun self =>
    match last (out_buffer64 self) with
    | Some (_, prev_out_time_ms) => (Ok prev_out_time_ms, self)
    | None => (Raise IndexError, self)
    end.

(** [LatencyIOProcessor.put_state(state_dict, sample_time_ms)] *)
Definition put_state64 (state_dict : StateDict) (sample_time_ms : float)
    : M LatencyIOProcessor64 unit :=
  (r <- call_process64 state_dict sample_time_ms ;;
   let '(out, out_time_ms) := r in
   self <- get ;;
   out_time_ms <-
     (if py_eq_str (processing64 self) "serial"
         && (0 <? length (out_buffer64 self))%nat then
        prev_out_time_ms <- last_out_time64 ;;
        ret (prev_out_time_ms + out_time_ms - sample_time_ms)%float
      else ret out_time_ms) ;;
   modify (fun self =>
     {| out_buffer64 := out_buffer64 self ++ [(out, out_time_ms)];
        sample_period_ms64 := sample_period_ms64 self;
        sampling64 := sampling64 self; processing64 := processing64 self;
        _needs_off_schedule_sample64 := _needs_off_schedule_sample64 self;
        subclass64 := subclass64 self |}) ;;
   modify (fun self =>
     {| out_buffer64 := out_buffer64 self;
        sample_period_ms64 := sample_period_ms64 self;
        sampling64 := sampling64 self; processing64 := processing64 self;
        _needs_off_schedule_sample64 := Some false;
        subclass64 := subclass64 self |}))%method.

End Binary64.

(** [RecordOnlyProcessor] on float times. *)
#[export] Instance RecordOnlyProcessor64 {Rng StateDict : Type}
    : LatencyIOProcessorImpl64 (StateDict := StateDict)
        (CtrlSignal := gmap string (@pyobj Rng)) (U := unit) :=
  {| process64 := fun _ sample_time_ms => ret (∅, sample_time_ms) |}.

(** [RecordOnlyProcessor(0.1, processing="serial")] as its constructor
    leaves it: period 0.1 ms, "fixed" sampling, "serial" processing, an
    empty buffer and no flag. *)
Definition RecordOnlyProcessor64_new
    : LatencyIOProcessor64 (Rng := unit)
        (CtrlSignal := gmap string (@pyobj unit)) (U := unit) :=
  {| out_buffer64 := []; sample_period_ms64 := 0.1%float;
     sampling64 := PyStr "fixed"; processing64 := PyStr "serial";
     _needs_off_schedule_sample64 := None; subclass64 := tt |}.

(** * The light-opsin registry and electrode signals

    [cleo/opto/registry.py] and the [Signal] class of
    [cleosim/ephys/electrodes.py].  Objects that are compared or used as
    dictionary keys by identity (neuron groups, opsins, lights, simulators,
    electrode groups) are modelled by types with decidable equality. *)

Section LightOpsinRegistry.

Context {NeuronGroup Opsin Light Synapses : Type}.
Context `{Countable NeuronGroup, Countable Opsin, Countable Light}.

(** What [connect_light_to_opsin_for_ng] builds before it touches the
    registry: it looks up the opsin's light-aggregator group, evaluates the
    opsin's [epsilon] and the light's transmittance and creates and
    connects a [Synapses] object.  These are Brian objects; here the
    construction is a function that returns the synapses or raises. *)
Context (new_light_prop_syn :
           Light -> Opsin -> NeuronGroup -> result Synapses).

(** The registry: its three dictionaries, and what it has added to the
    network of its simulator. *)
Record LightOpsinRegistry : Type := {
  opsins_for_ng : gmap NeuronGroup (gset Opsin);
  lights_for_ng : gmap NeuronGroup (gset Light);
  light_prop_syns : gmap (Light * Opsin * NeuronGroup) Synapses;
  sim_network : list Synapses;
}.

(** [LightOpsinRegistry(sim)]: the dictionaries start empty. *)
Definition LightOpsinRegistry_new : LightOpsinRegistry :=
  {| opsins_for_ng := ∅; lights_for_ng := ∅; light_prop_syns := ∅;
     sim_network := [] |}.

(** [LightOpsinRegistry.connect_light_to_opsin_for_ng(light, opsin, ng)] *)
Definition connect_light_to_opsin_for_ng (light : Light) (opsin : Opsin)
    (ng : NeuronGroup) : M LightOpsinRegistry unit :=
  (light_prop_syn <- lift (new_light_prop_syn light opsin ng) ;;
   modify (fun self =>
     {| opsins_for_ng := opsins_for_ng self;
        lights_for_ng := lights_for_ng self;
        light_prop_syns := light_prop_syns self;
        sim_network := sim_network self ++ [light_prop_syn] |}) ;;
   modify (fun self =>
     {| opsins_for_ng := opsins_for_ng self;
        lights_for_ng := lights_for_ng self;
        light_prop_syns :=
          <[ (light, opsin, ng) := light_prop_syn ]> (light_prop_syns self);
        sim_network := sim_network self |}))%method.

(** A [for] loop over a list, stopping at the first exception. *)
Fixpoint for_each {S A : Type} (l : list A) (body : A -> M S unit)
    : M S unit :=
  match l with
  | [] => ret tt
  | x :: l' => (body x ;; for_each l' body)%method
  end.

(** [self.opsins_for_ng.get(ng, set()).add(opsin)]: the set stored under
    [ng] grows in place; when there is none, the opsin goes into a fresh
    set that the dictionary does not hold. *)
Definition opsins_for_ng_get_add (ng : NeuronGroup) (opsin : Opsin)
    (self : LightOpsinRegistry) : LightOpsinRegistry :=
  match opsins_for_ng self !! ng with
  | Some opsins =>
      {| opsins_for_ng :=
           <[ ng := opsins ∪ {[ opsin ]} ]> (opsins_for_ng self);
         lights_for_ng := lights_for_ng self;
         light_prop_syns := light_prop_syns self;
         sim_network := sim_network self |}
  | None => self
  end.

(** [self.lights_for_ng.get(ng, set()).add(light)] *)
Definition lights_for_ng_get_add (ng : NeuronGroup) (light : Light)
    (self : LightOpsinRegistry) : LightOpsinRegistry :=
  match lights_for_ng self !! ng with
  | Some lights =>
      {| opsins_for_ng := opsins_for_ng self;
         lights_for_ng :=
           <[ ng := lights ∪ {[ light ]} ]> (lights_for_ng self);
         light_prop_syns := light_prop_syns self;
         sim_network := sim_network self |}
  | None => self
  end.

(** [LightOpsinRegistry.register_opsin(opsin, ng)] *)
Definition register_opsin (opsin : Opsin) (ng : NeuronGroup)
    : M LightOpsinRegistry unit :=
  (modify (opsins_for_ng_get_add ng opsin) ;;
   self <- get ;;
   let prev_injct_lights := default ∅ (lights_for_ng self !! ng) in
   for_each (elements prev_injct_lights)
     (fun light => connect_light_to_opsin_for_ng light opsin ng))%method.

(** [LightOpsinRegistry.register_light(light, ng)] *)
Definition register_light (light : Light) (ng : NeuronGroup)
    : M LightOpsinRegistry unit :=
  (modify (lights_for_ng_get_add ng light) ;;
   self <- get ;;
   let prev_injct_opsins := default ∅ (opsins_for_ng self !! ng) in
   for_each (elements prev_injct_opsins)
     (fun opsin => connect_light_to_opsin_for_ng light opsin ng))%method.

(** Registrations made one after the other on a registry, the caller going
    on after a registration that raised. *)
Inductive registration : Type :=
  | RegisterOpsin (opsin : Opsin) (ng : NeuronGroup)
  | RegisterLight (light : Light) (ng : NeuronGroup).

Definition register (c : registration) : M LightOpsinRegistry unit :=
  match c with
  | RegisterOpsin opsin ng => register_opsin opsin ng
  | RegisterLight light ng => register_light light ng
  end.

Definition after_registrations (cs : list registration)
    (self : LightOpsinRegistry) : LightOpsinRegistry :=
  fold_left (fun self c => snd (register c self)) cs self.

(** [lor_for_sim(sim)] on the module-level dictionary [registries]: the
    registry of the simulator, created on first use.  [None] stands for the
    failed assertion [sim is not None]. *)
Definition lor_for_sim {CLSimulator : Type} `{Countable CLSimulator}
    (sim : option CLSimulator)
    (registries : gmap CLSimulator LightOpsinRegistry)
    : option (LightOpsinRegistry * gmap CLSimulator LightOpsinRegistry) :=
  match sim with
  | None => None
  | Some sim =>
      let registries :=
        match registries !! sim with
        | None => <[ sim := LightOpsinRegistry_new ]> registries
        | Some _ => registries
        end in
      match registries !! sim with
      | Some registry => Some (registry, registries)
      | None => None
      end
  end.

End LightOpsinRegistry.

Section Signal.

(** Electrode groups, told apart by identity, with their name and
    coordinates. *)
Context {ElectrodeGroup Coords : Type}.
Context `{EqDecision ElectrodeGroup}.
Context (group_name : ElectrodeGroup -> string).
Context (group_coords : ElectrodeGroup -> Coords).

(** The attributes of a [Signal] that [init_for_electrode_group] uses.
    [electrode_group] is [None] until the signal is initialised; [_coords]
    does not exist before. *)
Record Signal : Type := {
  name : string;
  electrode_group : option ElectrodeGroup;
  _coords : option Coords;
}.

(** [Signal.init_for_electrode_group(eg)] *)
Definition init_for_electrode_group (eg : ElectrodeGroup)
    : M Signal unit :=
  fun self =>
    match electrode_group self with
    | Some current =>
        if bool_decide (current <> eg) then
          (Raise (ValueError
                    ("Signal " ++ name self
                     ++ " has already been initialized for ElectrodeGroup "
                     ++ group_name current
                     ++ " and cannot be used with another.")),
           self)
        else
          (Ok tt,
           {| name := name self; electrode_group := Some eg;
              _coords := Some (group_coords eg) |})
    | None =>
        (Ok tt,
         {| name := name self; electrode_group := Some eg;
            _coords := Some (group_coords eg) |})
    end.

(** Initialisations tried one after the other on a signal. *)
Definition after_inits (egs : list ElectrodeGroup) (self : Signal)
    : Signal :=
  fold_left (fun self eg => snd (init_for_electrode_group eg self)) egs self.

End Signal.

(** * Properties *)

(** ** Rational arithmetic used below *)

Lemma Qle_bool_false_lt (a b : Q) : Qle_bool a b = false -> b < a.
Proof.
  intros H. apply Qnot_le_lt. intros Hle.
  apply Qle_bool_iff in Hle. congruence.
Qed.

Lemma Qle_bool_true_le (a b : Q) : Qle_bool a b = true -> a <= b.
Proof. apply Qle_bool_iff. Qed.

(** ** ProcessingBlock *)

Section ProcessingBlockProperties.

Context {Rng Input Output : Type}.
Context {block_impl :
  ProcessingBlockImpl (Rng := Rng) (Input := Input) (Output := Output)}.

Implicit Types (b : ProcessingBlock (Rng := Rng) (Output := Output)).
Implicit Types (w : BlockWorld (Rng := Rng) (Output := Output)).
Implicit Types (kwargs : gmap string (@pyobj Rng)).

(** The constructor accepts exactly the keyword maps whose [delay] is a
    [Delay] object, and stores it. *)
Lemma ProcessingBlock_init_Ok kwargs b :
  ProcessingBlock_init kwargs = Ok b ->
  exists d, kwargs !! "delay" = Some (PyDelay d) /\ delay b = PyDelay d.
Proof.
  unfold ProcessingBlock_init, kwargs_get.
  destruct (kwargs !! "delay") as [[| | | |d]|]; simpl; try discriminate.
  intros H. exists d. split; [reflexivity|].
  destruct (is_True _); injection H as <-; reflexivity.
Qed.

Lemma ProcessingBlock_init_Delay kwargs d :
  kwargs !! "delay" = Some (PyDelay d) ->
  exists b, ProcessingBlock_init kwargs = Ok b.
Proof.
  intros H. unfold ProcessingBlock_init, kwargs_get. rewrite H. simpl.
  destruct (is_True _); eauto.
Qed.

Lemma ProcessingBlock_init_no_Delay kwargs :
  (forall d, kwargs !! "delay" <> Some (PyDelay d)) ->
  ProcessingBlock_init (Output := Output) kwargs =
    Raise (TypeError "delay must be of the Delay class").
Proof.
  intros H. unfold ProcessingBlock_init, kwargs_get.
  destruct (kwargs !! "delay") as [[| | | |d]|]; simpl; try reflexivity.
  exfalso. apply (H d). reflexivity.
Qed.

(** With [save_history] a Python bool, the constructor leaves the history
    ready. *)
Lemma ProcessingBlock_init_history_ready kwargs b :
  ProcessingBlock_init kwargs = Ok b ->
  (forall v, kwargs !! "save_history" = Some v -> exists f, v = PyBool f) ->
  history_ready b.
Proof.
  unfold ProcessingBlock_init. destruct (negb _); [discriminate|].
  unfold kwargs_get. intros H Hbool.
  destruct (kwargs !! "save_history") as [v|] eqn:Hv.
  - destruct (Hbool v eq_refl) as [f ->].
    destruct f; simpl in H; injection H as <-; unfold history_ready; simpl.
    + intros _. exists [], [], []. auto.
    + discriminate.
  - simpl in H. injection H as <-. unfold history_ready. simpl. discriminate.
Qed.

(** One call of [process] on a block whose history is ready. *)
Lemma process_block_returns w input in_time_ms kw out :
  _process input kw = Ok out ->
  history_ready (self_block w) ->
  forall d, delay (self_block w) = PyDelay d ->
  exists w',
    process_block input in_time_ms kw w
      = (Ok (out, in_time_ms + fst (compute d (rng w))), w')
    /\ rng w' = snd (compute d (rng w))
    /\ delay (self_block w') = delay (self_block w)
    /\ save_history (self_block w') = save_history (self_block w)
    /\ (truthy (save_history (self_block w)) = false ->
        self_block w' = self_block w)
    /\ (truthy (save_history (self_block w)) = true ->
        exists l1 l2 l3,
          t (self_block w) = Some l1 /\ out_t (self_block w) = Some l2
          /\ values (self_block w) = Some l3
          /\ t (self_block w') = Some (l1 ++ [in_time_ms])
          /\ out_t (self_block w')
               = Some (l2 ++ [in_time_ms + fst (compute d (rng w))])
          /\ values (self_block w') = Some (l3 ++ [out])).
Proof.
  intros Hout Hready d Hd.
  destruct w as [b g]; simpl in *.
  unfold process_block, bind, lift, get, ret. rewrite Hout. simpl.
  rewrite Hd. simpl. unfold delay_compute, bind, ret. simpl. rewrite Hd.
  destruct (compute d g) as [d_ms g'] eqn:Hc. simpl.
  destruct (truthy (save_history b)) eqn:Htr.
  - destruct (Hready Htr) as (l1 & l2 & l3 & H1 & H2 & H3).
    unfold t_append, out_t_append, values_append, with_block. simpl.
    rewrite H1. simpl. rewrite H2. simpl. rewrite H3. simpl.
    eexists. split; [reflexivity|]. simpl.
    repeat split; auto; try discriminate.
    intros _. exists l1, l2, l3. repeat split.
  - eexists. split; [reflexivity|]. simpl.
    repeat split; auto. discriminate.
Qed.

Lemma process_block_no_delay w input in_time_ms kw out :
  _process input kw = Ok out ->
  history_ready (self_block w) ->
  delay (self_block w) = PyNone ->
  exists w', process_block input in_time_ms kw w = (Ok (out, in_time_ms), w').
Proof.
  intros Hout Hready Hd.
  destruct w as [b g]; simpl in *.
  unfold process_block, bind, lift, get, ret. rewrite Hout. simpl.
  rewrite Hd. simpl.
  destruct (truthy (save_history b)) eqn:Htr.
  - destruct (Hready Htr) as (l1 & l2 & l3 & H1 & H2 & H3).
    unfold t_append, out_t_append, values_append, with_block. simpl.
    rewrite H1. simpl. rewrite H2. simpl. rewrite H3. simpl. eauto.
  - eauto.
Qed.

Lemma process_block_raises w input in_time_ms kw e :
  _process input kw = Raise e ->
  process_block input in_time_ms kw w = (Raise e, w).
Proof.
  intros H. unfold process_block, bind, lift. rewrite H. reflexivity.
Qed.

(** C3, as amended.  A block cannot be constructed without a Delay: the
    constructor returns a block exactly when the [delay] keyword argument is
    a [Delay] object and raises [TypeError] otherwise, so every constructed
    block has a Delay attached.  For every block with a Delay attached,
    [process(input, t)] returns [out_time = t + delay.compute()]; a block
    whose [delay] attribute is [None], which only an assignment after
    construction can produce, gets [out_time = t]. *)
Theorem process_out_time :
  (forall kwargs,
     (exists b, ProcessingBlock_init kwargs = Ok b)
     <-> (exists d, kwargs !! "delay" = Some (PyDelay d)))
  /\ (forall kwargs,
        (forall d, kwargs !! "delay" <> Some (PyDelay d)) ->
        ProcessingBlock_init (Output := Output) kwargs
          = Raise (TypeError "delay must be of the Delay class"))
  /\ (forall kwargs b,
        ProcessingBlock_init kwargs = Ok b -> exists d, delay b = PyDelay d)
  /\ (forall w input in_time_ms kw out d,
        _process input kw = Ok out ->
        history_ready (self_block w) ->
        delay (self_block w) = PyDelay d ->
        exists w',
          process_block input in_time_ms kw w
            = (Ok (out, in_time_ms + fst (compute d (rng w))), w'))
  /\ (forall w input in_time_ms kw out,
        _process input kw = Ok out ->
        history_ready (self_block w) ->
        delay (self_block w) = PyNone ->
        exists w',
          process_block input in_time_ms kw w = (Ok (out, in_time_ms), w')).
Proof.
  split; [|split; [|split; [|split]]].
  - intros kwargs. split.
    + intros [b Hb]. destruct (ProcessingBlock_init_Ok _ _ Hb) as (d & Hd & _).
      eauto.
    + intros [d Hd]. eapply ProcessingBlock_init_Delay; eauto.
  - apply ProcessingBlock_init_no_Delay.
  - intros kwargs b Hb.
    destruct (ProcessingBlock_init_Ok _ _ Hb) as (d & _ & Hd). eauto.
  - intros w input in_time_ms kw out d Hout Hready Hd.
    destruct (process_block_returns w input in_time_ms kw out Hout Hready d Hd)
      as (w' & Hw' & _).
    eauto.
  - intros w input in_time_ms kw out.
    apply process_block_no_delay.
Qed.

(** The history of a recording block along a sequence of calls. *)
Lemma process_calls_history calls :
  forall w d l1 l2 l3 rs w',
    delay (self_block w) = PyDelay d ->
    truthy (save_history (self_block w)) = true ->
    t (self_block w) = Some l1 ->
    out_t (self_block w) = Some l2 ->
    values (self_block w) = Some l3 ->
    process_calls calls w = (rs, w') ->
    t (self_block w')
      = Some (l1 ++ take (length rs) (map (fun c => snd (fst c)) calls))
    /\ out_t (self_block w') = Some (l2 ++ map snd rs)
    /\ values (self_block w') = Some (l3 ++ map fst rs)
    /\ (transform_returns calls -> length rs = length calls).
Proof.
  induction calls as [|[[input in_time_ms] kw] calls IH];
    intros w d l1 l2 l3 rs w' Hd Htr H1 H2 H3 Hrun.
  - simpl in Hrun. injection Hrun as <- <-. simpl.
    rewrite !app_nil_r. auto.
  - simpl in Hrun.
    destruct (_process input kw) as [out|e] eqn:Hout.
    + assert (Hready : history_ready (self_block w)).
      { intros _. eauto 10. }
      destruct (process_block_returns w input in_time_ms kw out Hout Hready
                  d Hd)
        as (w1 & Hstep & _ & Hd1 & Hs1 & _ & Hhist).
      rewrite Hstep in Hrun.
      destruct (process_calls calls w1) as [rs1 w2] eqn:Hrest.
      injection Hrun as <- <-.
      destruct (Hhist Htr) as (k1 & k2 & k3 & E1 & E2 & E3 & A1 & A2 & A3).
      assert (k1 = l1) by congruence. assert (k2 = l2) by congruence.
      assert (k3 = l3) by congruence. subst k1 k2 k3.
      rewrite Hd in Hd1. rewrite <- Hs1 in Htr.
      destruct (IH w1 d _ _ _ rs1 w2 Hd1 Htr A1 A2 A3 Hrest)
        as (T1 & T2 & T3 & T4).
      simpl. rewrite T1, T2, T3, <- !app_assoc. simpl.
      repeat split; try reflexivity.
      intros Hall. inversion Hall; subst. f_equal. auto.
    + rewrite (process_block_raises w input in_time_ms kw e Hout) in Hrun.
      injection Hrun as <- <-. simpl. rewrite !app_nil_r.
      repeat split; try assumption.
      intros Hall. inversion Hall as [|c cs [out Hc] Hcs]; subst.
      simpl in Hc. congruence.
Qed.

(** C9.  For a block constructed with [save_history=True], every call of
    [process] that returns appends its input time, its output time and its
    output to [t], [out_t] and [values]: after a sequence of calls the three
    lists hold the input times, output times and outputs of the calls that
    returned, so they have the same length, and that length is the number
    of calls when the transform returns on every input. *)
Theorem history_lengths kwargs b g calls rs w :
  ProcessingBlock_init kwargs = Ok b ->
  kwargs !! "save_history" = Some (PyBool true) ->
  process_calls calls {| self_block := b; rng := g |} = (rs, w) ->
  exists l1 l2 l3,
    t (self_block w) = Some l1
    /\ out_t (self_block w) = Some l2
    /\ values (self_block w) = Some l3
    /\ l1 = take (length rs) (map (fun c => snd (fst c)) calls)
    /\ l2 = map snd rs
    /\ l3 = map fst rs
    /\ length l1 = length rs
    /\ length l2 = length rs
    /\ length l3 = length rs
    /\ (transform_returns calls -> length rs = length calls).
Proof.
  intros Hinit Hsave Hrun.
  destruct (ProcessingBlock_init_Ok _ _ Hinit) as (d & Hkd & Hd).
  assert (Hb : save_history b = PyBool true /\ t b = Some [] /\
               out_t b = Some [] /\ values b = Some []).
  { revert Hinit. unfold ProcessingBlock_init, kwargs_get.
    rewrite Hkd, Hsave. simpl. intros H. injection H as <-. simpl. auto. }
  destruct Hb as (Hs & H1 & H2 & H3).
  destruct (process_calls_history calls {| self_block := b; rng := g |}
              d [] [] [] rs w Hd
              ltac:(simpl; rewrite Hs; reflexivity) H1 H2 H3 Hrun)
    as (T1 & T2 & T3 & T4).
  simpl in T1, T2, T3.
  assert (Hle : (length rs <= length calls)%nat).
  { clear -Hrun. revert rs w Hrun.
    generalize ({| self_block := b; rng := g |}).
    induction calls as [|[[i ti] kw] calls IH]; intros w0 rs w Hrun.
    - simpl in Hrun. injection Hrun as <- <-. simpl. lia.
    - simpl in Hrun.
      destruct (process_block i ti kw w0) as [[r|e] w1].
      + destruct (process_calls calls w1) as [rs1 w2] eqn:Hrest.
        injection Hrun as <- <-. simpl. specialize (IH _ _ _ Hrest). lia.
      + injection Hrun as <- <-. simpl. lia. }
  eexists _, _, _. split; [exact T1|]. split; [exact T2|]. split; [exact T3|].
  repeat split; try assumption.
  - rewrite length_take, length_map. lia.
  - apply length_map.
  - apply length_map.
Qed.

End ProcessingBlockProperties.

(** ** LatencyIOProcessor: single calls *)

Lemma py_mod_nonzero (a b : Q) : ~ b == 0 -> py_mod a b = Ok (floor_mod a b).
Proof.
  intros H. unfold py_mod.
  destruct (Qeq_bool b 0) eqn:E; [|reflexivity].
  apply Qeq_bool_iff in E. contradiction.
Qed.

Lemma py_mod_Ok (a b r : Q) :
  py_mod a b = Ok r -> ~ b == 0 /\ r = floor_mod a b.
Proof.
  unfold py_mod. destruct (Qeq_bool b 0) eqn:E; [discriminate|].
  intros H. injection H as <-. split; [|reflexivity].
  intros Hb. apply Qeq_bool_iff in Hb. congruence.
Qed.

Lemma isclose_zero (r : Q) : isclose r 0 = true <-> Qabs r <= atol.
Proof.
  unfold isclose. rewrite Qle_bool_iff.
  assert (E1 : r - 0 == r) by ring.
  assert (E2 : atol + rtol * Qabs 0 == atol) by (change (Qabs 0) with 0; ring).
  rewrite E1, E2. reflexivity.
Qed.

Section LatencyIOProcessorProperties.

Context {Rng StateDict CtrlSignal U : Type}.
Context {io_impl :
  LatencyIOProcessorImpl (StateDict := StateDict) (CtrlSignal := CtrlSignal)
    (U := U)}.

Implicit Types
  (self : LatencyIOProcessor (Rng := Rng) (CtrlSignal := CtrlSignal) (U := U)).
Implicit Types (kwargs : gmap string (@pyobj Rng)).

(** C1.  [get_ctrl_signal(t)] returns the head entry's output and removes
    exactly that entry when the buffer is non-empty and the head's output
    time is at most [t]; in every other case it returns none and leaves the
    processor as it was.  What it returns depends on the head entry only. *)
Theorem get_ctrl_signal_releases_head self query_time_ms :
  ((exists out out_time rest,
      out_buffer self = (out, out_time) :: rest
      /\ out_time <= query_time_ms
      /\ get_ctrl_signal query_time_ms self
           = (Ok (Some out), set_out_buffer rest self))
   \/ ((out_buffer self = []
        \/ exists out out_time rest,
             out_buffer self = (out, out_time) :: rest
             /\ query_time_ms < out_time)
       /\ get_ctrl_signal query_time_ms self = (Ok None, self)))
  /\ (forall self',
        head (out_buffer self') = head (out_buffer self) ->
        fst (get_ctrl_signal query_time_ms self')
          = fst (get_ctrl_signal query_time_ms self)).
Proof.
  split.
  - unfold get_ctrl_signal, bind, get, ret, modify.
    destruct (out_buffer self) as [|[out out_time] rest] eqn:Hbuf.
    + right. split; [left|]; reflexivity.
    + destruct (Qle_bool out_time query_time_ms) eqn:Hle.
      * left. exists out, out_time, rest.
        split; [reflexivity|]. split; [|reflexivity].
        apply Qle_bool_true_le, Hle.
      * right. split; [|reflexivity].
        right. exists out, out_time, rest. split; [reflexivity|].
        apply Qle_bool_false_lt, Hle.
  - intros self' Hhd.
    unfold get_ctrl_signal, bind, get, ret, modify.
    destruct (out_buffer self) as [|[out out_time] rest],
             (out_buffer self') as [|[out' out_time'] rest'];
      simpl in Hhd; try discriminate; try reflexivity.
    injection Hhd as -> ->.
    destruct (Qle_bool out_time query_time_ms); reflexivity.
Qed.

(** C4, as amended.  A [sampling] keyword outside "fixed" and "when idle",
    or a [processing] keyword outside "serial" and "parallel", makes the
    constructor raise [ValueError]; an absent keyword takes its default.
    The sample period is not validated: with valid policies the constructor
    returns a processor that stores the given period, whatever its sign,
    and the policies. *)
Theorem LatencyIOProcessor_init_validates sample_period kwargs (u : U) :
  let sampling_arg := kwargs_get kwargs "sampling" (PyStr "fixed") in
  let processing_arg := kwargs_get kwargs "processing" (PyStr "parallel") in
  (py_in_strs sampling_arg ["fixed"; "when idle"] = false ->
   LatencyIOProcessor_init (CtrlSignal := CtrlSignal) sample_period kwargs u
     = Raise (ValueError "Invalid sampling scheme:"))
  /\ (py_in_strs sampling_arg ["fixed"; "when idle"] = true ->
      py_in_strs processing_arg ["serial"; "parallel"] = false ->
      LatencyIOProcessor_init (CtrlSignal := CtrlSignal) sample_period kwargs u
        = Raise (ValueError "Invalid processing scheme:"))
  /\ (py_in_strs sampling_arg ["fixed"; "when idle"] = true ->
      py_in_strs processing_arg ["serial"; "parallel"] = true ->
      LatencyIOProcessor_init (CtrlSignal := CtrlSignal) sample_period kwargs u
        = Ok {| out_buffer := []; sample_period_ms := sample_period;
                sampling := sampling_arg; processing := processing_arg;
                _needs_off_schedule_sample := None; subclass := u |}).
Proof.
  intros sampling_arg processing_arg. unfold LatencyIOProcessor_init.
  fold sampling_arg. fold processing_arg.
  split; [|split].
  - intros ->. reflexivity.
  - intros -> ->. reflexivity.
  - intros -> ->. reflexivity.
Qed.

(** The policies the constructor stores are among the enumerated ones. *)
Lemma LatencyIOProcessor_init_Ok sample_period kwargs (u : U) self :
  LatencyIOProcessor_init sample_period kwargs u = Ok self ->
  self = {| out_buffer := []; sample_period_ms := sample_period;
            sampling := kwargs_get kwargs "sampling" (PyStr "fixed");
            processing := kwargs_get kwargs "processing" (PyStr "parallel");
            _needs_off_schedule_sample := None; subclass := u |}
  /\ py_in_strs (sampling self) ["fixed"; "when idle"] = true
  /\ py_in_strs (processing self) ["serial"; "parallel"] = true.
Proof.
  unfold LatencyIOProcessor_init.
  destruct (py_in_strs (kwargs_get kwargs "sampling" _) _) eqn:Hs;
    [|discriminate].
  destruct (py_in_strs (kwargs_get kwargs "processing" _) _) eqn:Hp;
    [|discriminate].
  simpl. intros H. injection H as <-. simpl. auto.
Qed.

(** What [put_state] does once [process] has returned. *)
Lemma put_state_returns self state_dict sample_time_ms out out_time_ms u :
  process state_dict sample_time_ms (subclass self)
    = (Ok (out, out_time_ms), u) ->
  put_state state_dict sample_time_ms self
    = (Ok tt,
       {| out_buffer :=
            out_buffer self ++
              [(out,
                if py_eq_str (processing self) "serial"
                then match last (out_buffer self) with
                     | Some (_, prev_out_time_ms) =>
                         prev_out_time_ms + out_time_ms - sample_time_ms
                     | None => out_time_ms
                     end
                else out_time_ms)];
          sample_period_ms := sample_period_ms self;
          sampling := sampling self; processing := processing self;
          _needs_off_schedule_sample := Some false;
          subclass := u |}).
Proof.
  destruct self as [buf period samp proc flag u0]. simpl. intros Hp.
  unfold put_state, bind, call_process, get, ret, modify, last_out_time.
  simpl. rewrite Hp. simpl.
  destruct (py_eq_str proc "serial"); simpl; [|reflexivity].
  destruct buf as [|e buf _] using rev_ind.
  - reflexivity.
  - rewrite length_app. simpl.
    replace (0 <? length buf + 1)%nat with true
      by (symmetry; apply Nat.ltb_lt; lia).
    simpl. rewrite last_snoc. destruct e as [o prev]. reflexivity.
Qed.

Lemma put_state_raises self state_dict sample_time_ms e u :
  process state_dict sample_time_ms (subclass self) = (Raise e, u) ->
  put_state state_dict sample_time_ms self = (Raise e, set_subclass u self).
Proof.
  intros Hp. unfold put_state, bind, call_process. rewrite Hp. reflexivity.
Qed.

(** C6.  Under "parallel" processing, [put_state(state, s)] appends exactly
    the pair returned by [process], whatever the buffer holds: the buffered
    output time is the one the processing computed from [s] and this
    sample's own delay. *)
Theorem put_state_parallel self state_dict sample_time_ms out out_time_ms u :
  processing self = PyStr "parallel" ->
  process state_dict sample_time_ms (subclass self)
    = (Ok (out, out_time_ms), u) ->
  put_state state_dict sample_time_ms self
    = (Ok tt,
       {| out_buffer := out_buffer self ++ [(out, out_time_ms)];
          sample_period_ms := sample_period_ms self;
          sampling := sampling self; processing := processing self;
          _needs_off_schedule_sample := Some false;
          subclass := u |})
  /\ out_time_ms == sample_time_ms + (out_time_ms - sample_time_ms).
Proof.
  intros Hpar Hp. split; [|ring].
  rewrite (put_state_returns _ _ _ _ _ _ Hp), Hpar. reflexivity.
Qed.

(** C8.  If [process] raises, [put_state] raises the same exception and
    leaves the buffer and the missed-sample flag as they were; if [process]
    returns, [put_state] returns with exactly one entry appended. *)
Theorem put_state_atomic self state_dict sample_time_ms :
  match process state_dict sample_time_ms (subclass self) with
  | (Raise e, u) =>
      put_state state_dict sample_time_ms self
        = (Raise e, set_subclass u self)
      /\ out_buffer (set_subclass u self) = out_buffer self
      /\ _needs_off_schedule_sample (set_subclass u self)
           = _needs_off_schedule_sample self
  | (Ok (out, out_time_ms), u) =>
      exists effective_out_time_ms self',
        put_state state_dict sample_time_ms self = (Ok tt, self')
        /\ out_buffer self'
             = out_buffer self ++ [(out, effective_out_time_ms)]
        /\ _needs_off_schedule_sample self' = Some false
  end.
Proof.
  destruct (process state_dict sample_time_ms (subclass self))
    as [[[out out_time_ms]|e] u] eqn:Hp.
  - eexists _, _. split; [apply (put_state_returns _ _ _ _ _ _ Hp)|].
    split; reflexivity.
  - split; [apply (put_state_raises _ _ _ _ _ Hp)|]. split; reflexivity.
Qed.

(** C7.  Under "fixed" sampling with a non-zero period,
    [is_sampling_now(t)] returns whether [t mod period] is close to zero
    within the tolerance of [numpy.isclose], here an absolute deviation of
    at most [1e-08]; the answer does not depend on the buffer or on the
    missed-sample flag, and the processor is left as it was. *)
Theorem is_sampling_now_fixed self query_time_ms :
  sampling self = PyStr "fixed" ->
  ~ sample_period_ms self == 0 ->
  let r := floor_mod query_time_ms (sample_period_ms self) in
  is_sampling_now query_time_ms self = (Ok (isclose r 0), self)
  /\ (fst (is_sampling_now query_time_ms self) = Ok true
      <-> Qabs r <= atol)
  /\ (forall self',
        sampling self' = PyStr "fixed" ->
        sample_period_ms self' = sample_period_ms self ->
        fst (is_sampling_now query_time_ms self')
          = fst (is_sampling_now query_time_ms self)).
Proof.
  intros Hfixed Hperiod r.
  assert (Heq : forall self',
            sampling self' = PyStr "fixed" ->
            sample_period_ms self' = sample_period_ms self ->
            is_sampling_now query_time_ms self' = (Ok (isclose r 0), self')).
  { intros self' Hf Hp.
    unfold is_sampling_now, bind, get, lift, ret. rewrite Hf. simpl.
    rewrite Hp, (py_mod_nonzero _ _ Hperiod). fold r.
    destruct (isclose r 0); reflexivity. }
  split; [apply Heq; auto|]. split.
  - rewrite (Heq self Hfixed eq_refl). cbn [fst]. rewrite <- isclose_zero.
    split; [intros H; injection H; auto | intros ->; reflexivity].
  - intros self' Hf Hp. rewrite (Heq self' Hf Hp), (Heq self Hfixed eq_refl).
    reflexivity.
Qed.

(** C10.  On a processor constructed with "when idle" sampling, a first
    [is_sampling_now] at a time that is not a multiple of the period raises
    [AttributeError]: the off-schedule branch reads
    [_needs_off_schedule_sample], which the constructor has not assigned. *)
Theorem is_sampling_now_flag_unset sample_period kwargs (u : U) self
    query_time_ms r :
  LatencyIOProcessor_init sample_period kwargs u = Ok self ->
  kwargs !! "sampling" = Some (PyStr "when idle") ->
  py_mod query_time_ms sample_period = Ok r ->
  ~ r == 0 ->
  is_sampling_now query_time_ms self
    = (Raise (AttributeError "_needs_off_schedule_sample"), self).
Proof.
  intros Hinit Hkw Hmod Hr.
  destruct (LatencyIOProcessor_init_Ok _ _ _ _ Hinit) as (-> & _ & _).
  unfold is_sampling_now, bind, get, lift, ret, kwargs_get. simpl.
  rewrite Hkw. simpl. rewrite Hmod.
  destruct (Qeq_bool r 0) eqn:E.
  - apply Qeq_bool_iff in E. contradiction.
  - reflexivity.
Qed.

End LatencyIOProcessorProperties.

(** ** LatencyIOProcessor: sequences of calls *)

Section LatencyIOProcessorTraces.

Context {Rng StateDict CtrlSignal U : Type}.
Context {io_impl :
  LatencyIOProcessorImpl (StateDict := StateDict) (CtrlSignal := CtrlSignal)
    (U := U)}.

Implicit Types
  (self : LatencyIOProcessor (Rng := Rng) (CtrlSignal := CtrlSignal) (U := U)).
(** No method changes the configured policies or the period. *)
Lemma is_sampling_now_state self query_time_ms :
  snd (is_sampling_now query_time_ms self) = self
  \/ exists f,
       snd (is_sampling_now query_time_ms self)
         = set_needs_off_schedule_sample f self.
Proof.
  unfold is_sampling_now, bind, get, lift, ret, modify,
    get_needs_off_schedule_sample.
  destruct (py_eq_str (sampling self) "fixed").
  - destruct (py_mod _ _) as [r|e]; [|left; reflexivity].
    destruct (isclose r 0); left; reflexivity.
  - destruct (py_eq_str (sampling self) "when idle"); [|left; reflexivity].
    destruct (py_mod _ _) as [r|e]; [|left; reflexivity].
    destruct (Qeq_bool r 0).
    + destruct (_is_currently_idle _ _); right; eexists; reflexivity.
    + destruct (_needs_off_schedule_sample self) as [[|]|];
        left; reflexivity.
Qed.

Lemma get_ctrl_signal_state self query_time_ms :
  snd (get_ctrl_signal query_time_ms self) = self
  \/ exists e rest,
       out_buffer self = e :: rest
       /\ snd (get_ctrl_signal query_time_ms self) = set_out_buffer rest self.
Proof.
  unfold get_ctrl_signal, bind, get, ret, modify.
  destruct (out_buffer self) as [|[out out_time] rest] eqn:Hbuf.
  - left. reflexivity.
  - destruct (Qle_bool out_time query_time_ms).
    + right. exists (out, out_time), rest. auto.
    + left. reflexivity.
Qed.

Lemma after_call_config c self :
  processing (after_call c self) = processing self
  /\ sampling (after_call c self) = sampling self
  /\ sample_period_ms (after_call c self) = sample_period_ms self.
Proof.
  destruct c as [state_dict sample_time_ms|query_time_ms|query_time_ms];
    simpl.
  - destruct (process state_dict sample_time_ms (subclass self))
      as [[[out out_time_ms]|e] u] eqn:Hp.
    + rewrite (put_state_returns _ _ _ _ _ _ Hp). auto.
    + rewrite (put_state_raises _ _ _ _ _ Hp). auto.
  - destruct (get_ctrl_signal_state self query_time_ms)
      as [->|(e & rest & _ & ->)]; auto.
  - destruct (is_sampling_now_state self query_time_ms) as [->|[f ->]]; auto.
Qed.

(** *** "When idle" sampling *)

(** [is_sampling_now] under "when idle" sampling, branch by branch. *)
Lemma is_sampling_now_when_idle self query_time_ms :
  sampling self = PyStr "when idle" ->
  is_sampling_now query_time_ms self =
    match py_mod query_time_ms (sample_period_ms self) with
    | Raise e => (Raise e, self)
    | Ok r =>
        if Qeq_bool r 0 then
          if _is_currently_idle query_time_ms self
          then (Ok true, set_needs_off_schedule_sample false self)
          else (Ok false, set_needs_off_schedule_sample true self)
        else
          match _needs_off_schedule_sample self with
          | Some f => (Ok (f && _is_currently_idle query_time_ms self), self)
          | None =>
              (Raise (AttributeError "_needs_off_schedule_sample"), self)
          end
    end.
Proof.
  intros Hs.
  unfold is_sampling_now, bind, get, lift, ret, modify,
    get_needs_off_schedule_sample.
  rewrite Hs. simpl.
  destruct (py_mod _ _) as [r|e]; [|reflexivity].
  destruct (Qeq_bool r 0).
  - destruct (_is_currently_idle _ _); reflexivity.
  - destruct (_needs_off_schedule_sample self) as [[|]|]; reflexivity.
Qed.

(** One step of the driver under "when idle" sampling: a sample leaves the
    missed-sample flag cleared; while the flag is cleared no sample is taken
    off the schedule, and only a deferral raises the flag. *)
Lemma driver_step_when_idle ev self o self' :
  sampling self = PyStr "when idle" ->
  driver_step ev self = (Ok o, self') ->
  sampling self' = PyStr "when idle"
  /\ (is_sample o = true -> _needs_off_schedule_sample self' = Some false)
  /\ (_needs_off_schedule_sample self = Some false ->
      is_catch_up o = false
      /\ (is_deferral o = false ->
          _needs_off_schedule_sample self' = Some false)).
Proof.
  intros Hs. destruct ev as [query_time_ms state_dict|query_time_ms].
  - unfold driver_step, bind, get, ret, on_schedule.
    rewrite (is_sampling_now_when_idle _ _ Hs).
    destruct (py_mod _ _) as [r|e]; [|discriminate].
    destruct (Qeq_bool r 0).
    + destruct (_is_currently_idle query_time_ms self).
      * destruct (process state_dict query_time_ms
                    (subclass (set_needs_off_schedule_sample false self)))
          as [[[out out_time_ms]|e] u] eqn:Hp.
        -- rewrite (put_state_returns _ _ _ _ _ _ Hp).
           intros H. injection H as <- <-. simpl. auto.
        -- rewrite (put_state_raises _ _ _ _ _ Hp). discriminate.
      * intros H. injection H as <- <-. simpl.
        repeat split; auto; discriminate.
    + destruct (_needs_off_schedule_sample self) as [f|] eqn:Hf;
        [|discriminate].
      destruct (f && _is_currently_idle query_time_ms self) eqn:Hb.
      * destruct (process state_dict query_time_ms (subclass self))
          as [[[out out_time_ms]|e] u] eqn:Hp.
        -- rewrite (put_state_returns _ _ _ _ _ _ Hp).
           intros H. injection H as <- <-. simpl.
           split; [exact Hs|]. split; [auto|].
           intros Hff. injection Hff as ->. discriminate.
        -- rewrite (put_state_raises _ _ _ _ _ Hp). discriminate.
      * intros H. injection H as <- <-. simpl.
        split; [exact Hs|]. split; [discriminate|].
        intros Hff. injection Hff as ->. auto.
  - unfold driver_step, bind, ret.
    destruct (get_ctrl_signal query_time_ms self) as [[sig|e] s1] eqn:Hg;
      [|discriminate].
    intros H. injection H as <- <-. simpl.
    assert (Hs1 : s1 = snd (get_ctrl_signal query_time_ms self))
      by (rewrite Hg; reflexivity).
    destruct (get_ctrl_signal_state self query_time_ms)
      as [E|(e & rest & _ & E)]; rewrite E in Hs1; subst s1; simpl;
      (split; [exact Hs|]); (split; [discriminate|]); auto.
Qed.

(** From a cleared flag, no sample is taken off the schedule before a
    deferral. *)
Lemma run_no_catch_up evs :
  forall self l2 c2 l3 e self',
    sampling self = PyStr "when idle" ->
    _needs_off_schedule_sample self = Some false ->
    run evs self = (l2 ++ c2 :: l3, e, self') ->
    existsb is_deferral l2 = false ->
    is_catch_up c2 = false.
Proof.
  induction evs as [|ev evs IH]; intros self l2 c2 l3 e self' Hs Hf Hrun Hno.
  - simpl in Hrun. destruct l2; discriminate.
  - simpl in Hrun.
    destruct (driver_step ev self) as [[o|e0] s1] eqn:Hstep;
      [|destruct l2; discriminate].
    destruct (run evs s1) as [[os1 e1] s2] eqn:Hrest.
    destruct (driver_step_when_idle _ _ _ _ Hs Hstep) as (Hs1 & _ & Hflag).
    destruct (Hflag Hf) as (Hcatch & Hkeep).
    destruct l2 as [|o2 l2]; simpl in Hrun.
    + injection Hrun as <- _ _ _. exact Hcatch.
    + injection Hrun as Ho Hos He Hs2.
      rewrite Hos, He, Hs2 in Hrest. rewrite <- Ho in Hno. simpl in Hno.
      apply orb_false_iff in Hno as [Hd Hno].
      exact (IH s1 l2 c2 l3 e self' Hs1 (Hkeep Hd) Hrest Hno).
Qed.

(** Between a sample and a later sample taken off the schedule there is a
    deferral. *)
Lemma run_catch_up_once evs :
  forall self l1 c1 l2 c2 l3 e self',
    sampling self = PyStr "when idle" ->
    run evs self = (l1 ++ c1 :: l2 ++ c2 :: l3, e, self') ->
    is_sample c1 = true ->
    is_catch_up c2 = true ->
    existsb is_deferral l2 = true.
Proof.
  induction evs as [|ev evs IH];
    intros self l1 c1 l2 c2 l3 e self' Hs Hrun H1 H2.
  - simpl in Hrun. destruct l1; discriminate.
  - simpl in Hrun.
    destruct (driver_step ev self) as [[o|e0] s1] eqn:Hstep;
      [|destruct l1; discriminate].
    destruct (run evs s1) as [[os1 e1] s2] eqn:Hrest.
    destruct (driver_step_when_idle _ _ _ _ Hs Hstep) as (Hs1 & Hsample & _).
    destruct l1 as [|o1 l1]; simpl in Hrun.
    + injection Hrun as Ho Hos He Hs2.
      rewrite Hos, He, Hs2 in Hrest. subst o.
      destruct (existsb is_deferral l2) eqn:Hd; [reflexivity|].
      rewrite (run_no_catch_up evs s1 l2 c2 l3 e self' Hs1 (Hsample H1)
                 Hrest Hd) in H2.
      discriminate.
    + injection Hrun as Ho Hos He Hs2.
      rewrite Hos, He, Hs2 in Hrest.
      exact (IH s1 l1 c1 l2 c2 l3 e self' Hs1 Hrest H1 H2).
Qed.

(** While the flag is raised and every query finds the processor busy, the
    driver takes no sample and the flag stays raised. *)
Lemma run_busy evs :
  forall self,
    sampling self = PyStr "when idle" ->
    ~ sample_period_ms self == 0 ->
    _needs_off_schedule_sample self = Some true ->
    busy_at_queries evs self = true ->
    exists os self',
      run evs self = (os, None, self')
      /\ existsb is_sample os = false
      /\ sampling self' = PyStr "when idle"
      /\ sample_period_ms self' = sample_period_ms self
      /\ _needs_off_schedule_sample self' = Some true.
Proof.
  induction evs as [|ev evs IH]; intros self Hs Hp Hf Hbusy.
  - exists [], self. simpl. auto.
  - simpl in Hbusy. apply andb_true_iff in Hbusy as [Hev Hbusy].
    assert (Hstep : exists o s1,
              driver_step ev self = (Ok o, s1) /\ is_sample o = false
              /\ sampling s1 = PyStr "when idle"
              /\ sample_period_ms s1 = sample_period_ms self
              /\ _needs_off_schedule_sample s1 = Some true).
    { destruct ev as [query_time_ms state_dict|query_time_ms].
      - apply negb_true_iff in Hev.
        unfold driver_step, bind, get, ret, on_schedule.
        rewrite (is_sampling_now_when_idle _ _ Hs).
        rewrite (py_mod_nonzero _ _ Hp), Hev, Hf. simpl.
        destruct (Qeq_bool _ 0); eexists _, _; (split; [reflexivity|]);
          simpl; auto.
      - unfold driver_step, bind, ret.
        destruct (get_ctrl_signal query_time_ms self) as [[sig|e] s1] eqn:Hg.
        + assert (Hs1 : s1 = snd (get_ctrl_signal query_time_ms self))
            by (rewrite Hg; reflexivity).
          eexists _, s1. split; [reflexivity|]. simpl.
          destruct (get_ctrl_signal_state self query_time_ms)
            as [E|(e & rest & _ & E)]; rewrite E in Hs1; subst s1; simpl;
            auto.
        + exfalso. revert Hg. unfold get_ctrl_signal, bind, get, ret, modify.
          destruct (out_buffer self) as [|[out out_time] rest];
            [discriminate|].
          destruct (Qle_bool out_time query_time_ms); discriminate. }
    destruct Hstep as (o & s1 & Hstep & Ho & Hs1 & Hp1 & Hf1).
    rewrite Hstep in Hbusy. simpl in Hbusy.
    destruct (IH s1 Hs1 ltac:(rewrite Hp1; exact Hp) Hf1 Hbusy)
      as (os & s2 & Hrun & Hos & Hs2 & Hp2 & Hf2).
    exists (o :: os), s2. simpl. rewrite Hstep, Hrun. simpl.
    rewrite Ho, Hos. repeat split; auto. congruence.
Qed.

(** C2.  Under "when idle" sampling, a query on the schedule that finds the
    processor busy returns false and raises the missed-sample flag; the
    driver then takes no sample while its queries find the processor busy,
    and [is_sampling_now] returns true at the first later query, on the
    schedule or not, that finds it idle.  The flag is consumed once: in any
    run of the driver, between a sample and a later sample taken off the
    schedule there is a deferral, so no two catch-up samples come without
    a deferral between them. *)
Theorem when_idle_catch_up self :
  sampling self = PyStr "when idle" ->
  (forall query_time_ms,
     on_schedule query_time_ms self = true ->
     _is_currently_idle query_time_ms self = false ->
     exists self1,
       is_sampling_now query_time_ms self = (Ok false, self1)
       /\ _needs_off_schedule_sample self1 = Some true
       /\ forall evs,
            busy_at_queries evs self1 = true ->
            exists os self2,
              run evs self1 = (os, None, self2)
              /\ existsb is_sample os = false
              /\ forall t',
                   _is_currently_idle t' self2 = true ->
                   exists self3,
                     is_sampling_now t' self2 = (Ok true, self3))
  /\ (forall evs l1 c1 l2 c2 l3 e self',
        run evs self = (l1 ++ c1 :: l2 ++ c2 :: l3, e, self') ->
        is_sample c1 = true ->
        is_catch_up c2 = true ->
        existsb is_deferral l2 = true).
Proof.
  intros Hs. split.
  - intros query_time_ms Hon Hbusy.
    unfold on_schedule in Hon.
    destruct (py_mod query_time_ms (sample_period_ms self)) as [r|e] eqn:Hmod;
      [|discriminate].
    destruct (py_mod_Ok _ _ _ Hmod) as [Hp _].
    exists (set_needs_off_schedule_sample true self).
    split; [|split; [reflexivity|]].
    + rewrite (is_sampling_now_when_idle _ _ Hs), Hmod, Hon, Hbusy.
      reflexivity.
    + intros evs Hev.
      destruct (run_busy evs (set_needs_off_schedule_sample true self)
                  Hs Hp eq_refl Hev)
        as (os & self2 & Hrun & Hos & Hs2 & Hp2 & Hf2).
      exists os, self2. split; [exact Hrun|]. split; [exact Hos|].
      intros t' Hidle.
      rewrite (is_sampling_now_when_idle _ _ Hs2).
      rewrite py_mod_nonzero by (rewrite Hp2; exact Hp).
      rewrite Hidle, Hf2. simpl.
      destruct (Qeq_bool (floor_mod t' _) 0); eauto.
  - intros evs l1 c1 l2 c2 l3 e self'. apply run_catch_up_once, Hs.
Qed.

End LatencyIOProcessorTraces.


(** ** Serial processing on binary64 times *)

(** C5, which the code does not keep.  The comment in [put_state] says to
    add the delay onto the output time of the last computation, which for a
    delay that is not negative cannot fall below that output time.  The
    code evaluates [(prev_out_time_ms + out_time_ms) - sample_time_ms], and
    the sum rounds before the subtraction.  Take a [RecordOnlyProcessor]
    of period 0.1 ms under "serial" processing, sampled at 0.1 ms and then
    at 0.4 ms (both multiples of the period), with nothing released in
    between.  [process] returns the sample time as the output time, so the
    delay is zero and the output time is not below the sample time; the
    second entry is appended with the output time 0.09999999999999998,
    below the 0.1 of the first, so it is neither the previous output time
    plus the delay nor in non-decreasing order.  Adding the delay
    [out_time_ms - sample_time_ms] onto the previous output time gives
    0.1. *)
Theorem serial_rounding_breaks_order :
  let self1 :=
    snd (put_state64 (io_impl64 := RecordOnlyProcessor64) tt 0.1%float
           RecordOnlyProcessor64_new) in
  let self2 :=
    snd (put_state64 (io_impl64 := RecordOnlyProcessor64) tt 0.4%float
           self1) in
  fst (process64 (LatencyIOProcessorImpl64 := RecordOnlyProcessor64
                    (Rng := unit) (StateDict := unit))
         tt 0.4%float tt)
  = Ok (∅, 0.4%float)
  /\ (0.4 <=? 0.4)%float = true
  /\ fst (put_state64 (io_impl64 := RecordOnlyProcessor64) tt 0.4%float
            self1) = Ok tt
  /\ out_buffer64 self1 = [(∅, 0.1%float)]
  /\ out_buffer64 self2
     = [(∅, 0.1%float); (∅, 0.09999999999999998%float)]
  /\ (0.09999999999999998 <? 0.1)%float = true
  /\ (0.1 + (0.4 - 0.4))%float = 0.1%float.
Proof. vm_compute. repeat split; reflexivity. Qed.

(** * Worked examples *)

(** ** The control-loop tests, replayed on the model *)

Example MyDelayCL_init_fixed_serial :
  MyDelayCL_init 1
    {[ "sampling" := PyStr "fixed"; "processing" := PyStr "serial" ]}
  = Ok (MyDelayCL_new "fixed" "serial").
Proof. vm_compute. reflexivity. Qed.

Example test_fixed_serial :
  let os := fst (fst (run (test_events test_times
                             [42; 66; -1; -1; 1847; -1; -1])
                        (MyDelayCL_new "fixed" "serial"))) in
  sampled_at os = [true; true; false; false; true; false; false]
  /\ released_at os = [None; None; Some 42; None; None; None; Some (66 + 1)].
Proof. vm_compute. split; reflexivity. Qed.

Example test_fixed_parallel :
  let os := fst (fst (run (test_events test_times
                             [42; 66; -1; -1; 1847; -1; -1])
                        (MyDelayCL_new "fixed" "parallel"))) in
  sampled_at os = [true; true; false; false; true; false; false]
  /\ released_at os = [None; None; Some 42; None; None; Some (66 + 1); None].
Proof. vm_compute. split; reflexivity. Qed.

Example test_when_idle_serial :
  let os := fst (fst (run (test_events test_times
                             [42; -1; 66; -1; -1; -1; 1847])
                        (MyDelayCL_new "when idle" "serial"))) in
  sampled_at os = [true; false; true; false; false; false; true]
  /\ released_at os
       = [None; None; Some 42; None; None; None; Some (66 + (12 # 10))].
Proof. vm_compute. split; reflexivity. Qed.

(** Under "parallel" processing the entry of the sample taken at 1 ms is due
    at [1 + 1.199] ms, whatever the buffer holds. *)
Example put_state_parallel_MyDelayCL :
  out_buffer (snd (put_state {[ "in" := 66 ]} 1
                     (after_first_sample "fixed" "parallel")))
  = [({[ "out" := 42 + 0 ]}, 0 + MyDelayCL_delay);
     ({[ "out" := 66 + 1 ]}, 1 + MyDelayCL_delay)].
Proof. vm_compute. reflexivity. Qed.

(** A [RecordOnlyProcessor] buffers an empty output that is due at the
    sample time. *)
Example RecordOnlyProcessor_put_get :
  let self : LatencyIOProcessor (Rng := unit)
               (CtrlSignal := gmap string (@pyobj unit)) (U := unit) :=
    {| out_buffer := []; sample_period_ms := 1;
       sampling := PyStr "fixed"; processing := PyStr "parallel";
       _needs_off_schedule_sample := None; subclass := tt |} in
  fst (get_ctrl_signal 3
         (snd (put_state (StateDict := unit)
                 (io_impl := RecordOnlyProcessor) tt 3 self)))
  = Ok (Some ∅).
Proof. vm_compute. reflexivity. Qed.

(** ** The claims at concrete inputs *)

Lemma get_ctrl_signal_releases_head_witness :
  fst (get_ctrl_signal (13 # 10) (after_first_sample "fixed" "serial"))
  = fst (get_ctrl_signal (13 # 10)
           (snd (put_state {[ "in" := 66 ]} 1
                   (after_first_sample "fixed" "serial")))).
Proof.
  symmetry.
  apply (proj2 (get_ctrl_signal_releases_head
                  (after_first_sample "fixed" "serial") (13 # 10))).
  vm_compute. reflexivity.
Defined.

Lemma when_idle_catch_up_witness :
  sampling (after_first_sample "when idle" "serial") = PyStr "when idle"
  /\ on_schedule 1 (after_first_sample "when idle" "serial") = true
  /\ _is_currently_idle 1 (after_first_sample "when idle" "serial") = false
  /\ exists self1,
       is_sampling_now 1 (after_first_sample "when idle" "serial")
         = (Ok false, self1)
       /\ _needs_off_schedule_sample self1 = Some true
       /\ forall evs,
            busy_at_queries evs self1 = true ->
            exists os self2,
              run evs self1 = (os, None, self2)
              /\ existsb is_sample os = false
              /\ forall t',
                   _is_currently_idle t' self2 = true ->
                   exists self3,
                     is_sampling_now t' self2 = (Ok true, self3).
Proof.
  split; [reflexivity|]. split; [vm_compute; reflexivity|].
  split; [vm_compute; reflexivity|].
  apply (proj1 (when_idle_catch_up
                  (after_first_sample "when idle" "serial") eq_refl) 1);
    vm_compute; reflexivity.
Defined.

Lemma process_out_time_witness :
  exists w',
    process_block (block_impl := MyLoopComponent) 42 2
      {[ "measurement_time" := PyFloat 1 ]}
      {| self_block := test_block; rng := tt |}
    = (Ok (42 + 1, 2 + 5), w').
Proof.
  apply (proj1 (proj2 (proj2 (proj2
           (process_out_time (block_impl := MyLoopComponent)))))
           {| self_block := test_block; rng := tt |} 42 2
           {[ "measurement_time" := PyFloat 1 ]} (42 + 1)
           (ConstantDelay 5)).
  - vm_compute. reflexivity.
  - intros _. exists [], [], []. repeat split.
  - reflexivity.
Defined.

(** C3, the claim as stated fails: constructing a block without a Delay
    raises [TypeError]. *)
Lemma ProcessingBlock_without_delay_rejected :
  ProcessingBlock_init (Rng := unit) (Output := Q) ∅
    = Raise (TypeError "delay must be of the Delay class")
  /\ ProcessingBlock_init (Rng := unit) (Output := Q)
       {[ "delay" := PyNone ]}
     = Raise (TypeError "delay must be of the Delay class").
Proof. split; vm_compute; reflexivity. Qed.

Lemma LatencyIOProcessor_init_validates_witness :
  LatencyIOProcessor_init (Rng := unit) (CtrlSignal := gmap string Q) 1
    {[ "sampling" := PyStr "sometimes" ]} tt
  = Raise (ValueError "Invalid sampling scheme:").
Proof.
  apply (proj1 (LatencyIOProcessor_init_validates (Rng := unit)
                  (CtrlSignal := gmap string Q) 1
                  {[ "sampling" := PyStr "sometimes" ]} tt)).
  vm_compute. reflexivity.
Defined.

(** C4, the claim as stated fails: a non-positive sample period is
    accepted. *)
Lemma LatencyIOProcessor_init_accepts_nonpositive_period :
  -1 <= 0
  /\ LatencyIOProcessor_init (Rng := unit) (CtrlSignal := gmap string Q)
       (-1) ∅ tt
     = Ok {| out_buffer := []; sample_period_ms := -1;
             sampling := PyStr "fixed"; processing := PyStr "parallel";
             _needs_off_schedule_sample := None; subclass := tt |}
  /\ LatencyIOProcessor_init (Rng := unit) (CtrlSignal := gmap string Q)
       0 ∅ tt
     = Ok {| out_buffer := []; sample_period_ms := 0;
             sampling := PyStr "fixed"; processing := PyStr "parallel";
             _needs_off_schedule_sample := None; subclass := tt |}.
Proof. split; [discriminate|]. split; vm_compute; reflexivity. Qed.

Lemma put_state_parallel_witness :
  put_state {[ "in" := 66 ]} 1 (after_first_sample "fixed" "parallel")
  = (Ok tt,
     {| out_buffer :=
          out_buffer (after_first_sample "fixed" "parallel")
            ++ [({[ "out" := 66 + 1 ]}, 1 + MyDelayCL_delay)];
        sample_period_ms := 1;
        sampling := PyStr "fixed"; processing := PyStr "parallel";
        _needs_off_schedule_sample := Some false;
        subclass := subclass (after_first_sample "fixed" "parallel") |}).
Proof.
  apply (put_state_parallel (after_first_sample "fixed" "parallel")
           {[ "in" := 66 ]} 1 {[ "out" := 66 + 1 ]} (1 + MyDelayCL_delay)
           (subclass (after_first_sample "fixed" "parallel"))).
  - reflexivity.
  - vm_compute. reflexivity.
Defined.

Lemma is_sampling_now_fixed_witness :
  is_sampling_now 2 (after_first_sample "fixed" "serial")
  = (Ok true, after_first_sample "fixed" "serial").
Proof.
  apply (is_sampling_now_fixed (after_first_sample "fixed" "serial") 2).
  - reflexivity.
  - vm_compute. discriminate.
Defined.

Lemma history_lengths_witness :
  exists l1 l2 l3,
    t test_block = Some [] /\
    let w := snd (process_calls test_block_calls
                    {| self_block := test_block; rng := tt |}) in
    t (self_block w) = Some l1 /\ out_t (self_block w) = Some l2
    /\ values (self_block w) = Some l3
    /\ length l1 = 2%nat /\ length l2 = 2%nat /\ length l3 = 2%nat.
Proof.
  destruct (history_lengths (block_impl := MyLoopComponent)
              test_block_kwargs test_block tt test_block_calls
              (fst (process_calls test_block_calls
                      {| self_block := test_block; rng := tt |}))
              (snd (process_calls test_block_calls
                      {| self_block := test_block; rng := tt |})))
    as (l1 & l2 & l3 & H1 & H2 & H3 & _ & _ & _ & L1 & L2 & L3 & _).
  - vm_compute. reflexivity.
  - vm_compute. reflexivity.
  - vm_compute. reflexivity.
  - exists l1, l2, l3. split; [reflexivity|]. cbv zeta.
    repeat split; assumption.
Defined.

Lemma is_sampling_now_flag_unset_witness :
  is_sampling_now (12 # 10) (MyDelayCL_new "when idle" "parallel")
  = (Raise (AttributeError "_needs_off_schedule_sample"),
     MyDelayCL_new "when idle" "parallel").
Proof.
  apply (is_sampling_now_flag_unset 1
           {[ "sampling" := PyStr "when idle" ]}
           (subclass (MyDelayCL_new "when idle" "parallel"))
           (MyDelayCL_new "when idle" "parallel")
           (12 # 10) (floor_mod (12 # 10) 1)).
  - vm_compute. reflexivity.
  - vm_compute. reflexivity.
  - vm_compute. reflexivity.
  - vm_compute. discriminate.
Defined.

(** * Further properties *)

(** ** ProcessingBlock: the history *)

Section ProcessingBlockHistory.

Context {Rng Input Output : Type}.
Context {block_impl :
  ProcessingBlockImpl (Rng := Rng) (Input := Input) (Output := Output)}.

Implicit Types (b : ProcessingBlock (Rng := Rng) (Output := Output)).
Implicit Types (w : BlockWorld (Rng := Rng) (Output := Output)).
Implicit Types (kwargs : gmap string (@pyobj Rng)).

Lemma process_block_keeps_aligned w input in_time_ms kw :
  history_aligned (self_block w) ->
  history_aligned (self_block (snd (process_block input in_time_ms kw w))).
Proof.
  destruct w as [[dl sh h1 h2 h3] g].
  intros (l1 & l2 & l3 & H1 & H2 & H3 & L12 & L23). simpl in *. subst.
  assert (Hsame : history_aligned
            {| delay := dl; save_history := sh; t := Some l1;
               out_t := Some l2; values := Some l3 |}).
  { exists l1, l2, l3. simpl. auto. }
  unfold process_block, bind, lift, get, ret. simpl.
  destruct (_process input kw) as [out|e]; [|exact Hsame].
  assert (Hgrow : forall x y z,
            history_aligned
              {| delay := dl; save_history := sh; t := Some (l1 ++ [x]);
                 out_t := Some (l2 ++ [y]); values := Some (l3 ++ [z]) |}).
  { intros x y z. eexists _, _, _. simpl.
    repeat split; rewrite !length_app; simpl; lia. }
  unfold delay_compute, t_append, out_t_append, values_append, with_block,
    bind, ret.
  destruct dl as [| | | |d]; simpl; try exact Hsame.
  - destruct (truthy sh); simpl; [apply Hgrow | exact Hsame].
  - destruct (compute d g) as [d_ms g']. simpl.
    destruct (truthy sh); simpl; [apply Hgrow | exact Hsame].
Qed.

(** X1.  Whatever a block is asked to process, and whether the calls return
    or raise, its three history lists keep the same length: a call appends
    to all three or to none. *)
Theorem history_stays_aligned calls w :
  history_aligned (self_block w) ->
  history_aligned (self_block (after_process_calls calls w)).
Proof.
  revert w. induction calls as [|[[input in_time_ms] kw] calls IH];
    intros w Hw.
  - exact Hw.
  - unfold after_process_calls. simpl. apply IH.
    apply process_block_keeps_aligned, Hw.
Qed.

(** X2.  A block constructed without [save_history], or with a false one,
    has no history lists, and [process] leaves it exactly as it was. *)
Theorem process_without_history kwargs b (g : Rng) input in_time_ms kw :
  ProcessingBlock_init kwargs = Ok b ->
  truthy (kwargs_get kwargs "save_history" (PyBool false)) = false ->
  t b = None /\ out_t b = None /\ values b = None
  /\ self_block
       (snd (process_block input in_time_ms kw
               {| self_block := b; rng := g |}))
     = b.
Proof.
  intros Hinit Hfalse.
  destruct (ProcessingBlock_init_Ok _ _ Hinit) as (d & Hkd & Hd).
  revert Hinit. unfold ProcessingBlock_init. unfold kwargs_get at 1.
  rewrite Hkd. simpl.
  destruct (is_True _) eqn:Htrue.
  { destruct (kwargs_get kwargs "save_history" (PyBool false))
      as [|[|]| | |]; simpl in *; discriminate. }
  intros H. injection H as <-. simpl in *. repeat split.
  unfold process_block, bind, lift, get, ret. simpl.
  destruct (_process input kw) as [out|e]; [|reflexivity].
  unfold delay_compute, bind, ret. simpl. rewrite Hd. simpl.
  destruct (compute d g) as [d_ms g']. simpl. rewrite Hfalse. reflexivity.
Qed.

(** X3.  History is recorded only for the literal [True].  A block
    constructed with a [save_history] that is truthy but is not [True] gets
    no history lists, and each [process] whose transform returns raises
    [AttributeError] at the first append, after the delay has been drawn. *)
Theorem process_truthy_save_history kwargs b (g : Rng) input in_time_ms kw
    out :
  ProcessingBlock_init kwargs = Ok b ->
  truthy (kwargs_get kwargs "save_history" (PyBool false)) = true ->
  is_True (kwargs_get kwargs "save_history" (PyBool false)) = false ->
  _process input kw = Ok out ->
  exists d,
    delay b = PyDelay d
    /\ t b = None
    /\ process_block input in_time_ms kw {| self_block := b; rng := g |}
       = (Raise (AttributeError "t"),
          {| self_block := b; rng := snd (compute d g) |}).
Proof.
  intros Hinit Htruthy Hnot Hout.
  destruct (ProcessingBlock_init_Ok _ _ Hinit) as (d & Hkd & Hd).
  exists d. split; [exact Hd|].
  revert Hinit. unfold ProcessingBlock_init. unfold kwargs_get at 1.
  rewrite Hkd. simpl. rewrite Hnot.
  intros H. injection H as <-. simpl in *. split; [reflexivity|].
  unfold process_block, bind, lift, get, ret. simpl. rewrite Hout.
  unfold delay_compute, bind, ret. simpl. rewrite Hd. simpl.
  destruct (compute d g) as [d_ms g']. simpl. rewrite Htruthy.
  reflexivity.
Qed.

End ProcessingBlockHistory.

(** ** Python modulo on rationals *)

Lemma Qfloor_unique (x : Q) (n : Z) :
  inject_Z n <= x -> x < inject_Z (n + 1) -> Qfloor x = n.
Proof.
  intros Hlo Hhi.
  assert (H1 : (n <= Qfloor x)%Z).
  { rewrite <- (Qfloor_Z n). apply Qfloor_resp_le, Hlo. }
  assert (H2 : (Qfloor x < n + 1)%Z).
  { apply Z.lt_nge. intros Hge. rewrite Zle_Qle in Hge.
    pose proof (Qfloor_le x) as Hf.
    apply (Qlt_irrefl x).
    eapply Qlt_le_trans; [exact Hhi|]. eapply Qle_trans; eauto. }
  lia.
Qed.

Lemma floor_mod_range (a b : Q) :
  0 < b -> 0 <= floor_mod a b /\ floor_mod a b < b.
Proof.
  intros Hb. unfold floor_mod.
  assert (Hnz : ~ b == 0) by (intros E; rewrite E in Hb; discriminate Hb).
  pose proof (Qfloor_le (a / b)) as Hlo.
  pose proof (Qlt_floor (a / b)) as Hhi.
  rewrite inject_Z_plus in Hhi.
  set (q := inject_Z (Qfloor (a / b))) in *.
  apply (Qmult_le_l _ _ b Hb) in Hlo.
  apply (Qmult_lt_l _ _ b Hb) in Hhi.
  rewrite (Qmult_div_r a _ Hnz) in Hlo, Hhi.
  change (inject_Z 1) with 1 in Hhi.
  split; lra.
Qed.

Lemma floor_mod_unique (a b r : Q) (n : Z) :
  0 < b -> a == b * inject_Z n + r -> 0 <= r -> r < b -> floor_mod a b == r.
Proof.
  intros Hb Ha Hr0 Hrb. unfold floor_mod.
  assert (Hnz : ~ b == 0) by (intros E; rewrite E in Hb; discriminate Hb).
  assert (Hq : Qfloor (a / b) = n).
  { apply Qfloor_unique.
    - apply Qle_shift_div_l; [exact Hb|]. rewrite Ha. lra.
    - apply Qlt_shift_div_r; [exact Hb|]. rewrite Ha, inject_Z_plus.
      change (inject_Z 1) with 1. lra. }
  rewrite Hq, Ha. ring.
Qed.

Lemma floor_mod_multiple (k : Z) (p : Q) :
  ~ p == 0 -> floor_mod (inject_Z k * p) p == 0.
Proof.
  intros Hp. unfold floor_mod.
  assert (Hq : Qfloor (inject_Z k * p / p) = k).
  { rewrite (Qfloor_comp _ _ (Qdiv_mult_l (inject_Z k) p Hp)). apply Qfloor_Z. }
  rewrite Hq. ring.
Qed.

(** ** LatencyIOProcessor: buffer, sampling times and the flag *)

Section LatencyIOProcessorFurther.

Context {Rng StateDict CtrlSignal U : Type}.
Context {io_impl :
  LatencyIOProcessorImpl (StateDict := StateDict) (CtrlSignal := CtrlSignal)
    (U := U)}.

Implicit Types
  (self : LatencyIOProcessor (Rng := Rng) (CtrlSignal := CtrlSignal) (U := U)).

(** X4.  The buffer is a queue: along any sequence of calls, the signals
    handed out so far followed by those still buffered are the signals
    buffered at the start followed by the outputs [process] returned, in
    the same order.  Nothing is lost, duplicated or reordered. *)
Theorem buffer_is_fifo cs self :
  map fst (out_buffer self) ++ ingested cs self
  = delivered cs self ++ map fst (out_buffer (after_calls cs self)).
Proof.
  revert self. induction cs as [|c cs IH]; intros self.
  - simpl. apply app_nil_r.
  - unfold after_calls. simpl. fold (after_calls cs (after_call c self)).
    destruct c as [state_dict sample_time_ms|query_time_ms|query_time_ms];
      simpl.
    + destruct (process state_dict sample_time_ms (subclass self))
        as [[[out out_time_ms]|e] u] eqn:Hp; simpl.
      * rewrite <- IH, (put_state_returns _ _ _ _ _ _ Hp). simpl.
        rewrite map_app, <- app_assoc. reflexivity.
      * rewrite <- IH, (put_state_raises _ _ _ _ _ Hp). reflexivity.
    + rewrite <- app_assoc, <- IH.
      unfold get_ctrl_signal, bind, get, ret, modify.
      destruct (out_buffer self) as [|[out out_time] rest] eqn:Hbuf; simpl.
      * rewrite Hbuf. reflexivity.
      * destruct (Qle_bool out_time query_time_ms); simpl.
        -- reflexivity.
        -- rewrite Hbuf. reflexivity.
    + rewrite <- IH.
      destruct (is_sampling_now_state self query_time_ms) as [->|[f ->]];
        reflexivity.
Qed.

(** X5.  [is_sampling_now] changes nothing but the missed-sample flag, and
    asking again at the same time gives the same answer and changes nothing
    more. *)
Theorem is_sampling_now_idempotent self query_time_ms :
  let self' := snd (is_sampling_now query_time_ms self) in
  out_buffer self' = out_buffer self
  /\ sample_period_ms self' = sample_period_ms self
  /\ sampling self' = sampling self
  /\ processing self' = processing self
  /\ subclass self' = subclass self
  /\ is_sampling_now query_time_ms self'
     = (fst (is_sampling_now query_time_ms self), self').
Proof.
  destruct self as [buf period samp proc flag u].
  unfold is_sampling_now, bind, get, lift, ret, modify,
    get_needs_off_schedule_sample, _is_currently_idle,
    set_needs_off_schedule_sample.
  simpl.
  destruct (py_eq_str samp "fixed") eqn:Hfixed.
  - destruct (py_mod query_time_ms period) as [r|e] eqn:Hmod; simpl.
    + destruct (isclose r 0) eqn:Hc; simpl; rewrite Hfixed, Hmod; simpl;
        rewrite Hc; auto 10.
    + rewrite Hfixed, Hmod. auto 10.
  - destruct (py_eq_str samp "when idle") eqn:Hidle;
      [|simpl; rewrite Hfixed, Hidle; auto 10].
    destruct (py_mod query_time_ms period) as [r|e] eqn:Hmod; simpl;
      [|rewrite Hfixed, Hidle, Hmod; auto 10].
    destruct (Qeq_bool r 0) eqn:Hr; simpl.
    + destruct (match buf with
                | [] => true
                | (_, next_out_time_ms) :: _ =>
                    Qle_bool next_out_time_ms query_time_ms
                end) eqn:Hi; simpl;
        rewrite Hfixed, Hidle, Hmod; simpl; rewrite Hr; simpl; rewrite Hi;
        auto 10.
    + destruct flag as [[|]|]; simpl; rewrite Hfixed, Hidle, Hmod; simpl;
        rewrite Hr; auto 10.
Qed.

Lemma get_ctrl_signal_length self query_time_ms :
  (length (out_buffer (snd (get_ctrl_signal query_time_ms self)))
   <= length (out_buffer self))%nat
  /\ (_is_currently_idle query_time_ms self = true ->
      length (out_buffer (snd (get_ctrl_signal query_time_ms self)))
      = pred (length (out_buffer self))).
Proof.
  unfold get_ctrl_signal, bind, get, ret, modify, _is_currently_idle.
  destruct (out_buffer self) as [|[out out_time] rest] eqn:Hbuf; simpl.
  - rewrite Hbuf. auto.
  - destruct (Qle_bool out_time query_time_ms); simpl.
    + split; [lia | reflexivity].
    + rewrite Hbuf. simpl. split; [lia | discriminate].
Qed.

Lemma get_ctrl_signal_returns self query_time_ms :
  exists o, fst (get_ctrl_signal query_time_ms self) = Ok o.
Proof.
  unfold get_ctrl_signal, bind, get, ret, modify.
  destruct (out_buffer self) as [|[out out_time] rest]; simpl; eauto.
  destruct (Qle_bool out_time query_time_ms); simpl; eauto.
Qed.

Lemma is_sampling_now_true_idle self query_time_ms self' :
  sampling self = PyStr "when idle" ->
  is_sampling_now query_time_ms self = (Ok true, self') ->
  _is_currently_idle query_time_ms self = true.
Proof.
  intros Hs. rewrite (is_sampling_now_when_idle _ _ Hs).
  destruct (py_mod _ _) as [r|e]; [|discriminate].
  destruct (Qeq_bool r 0).
  - destruct (_is_currently_idle query_time_ms self);
      [reflexivity | discriminate].
  - destruct (_needs_off_schedule_sample self) as [[|]|]; simpl;
      try discriminate.
    intros H. injection H as -> _. reflexivity.
Qed.

Lemma run_cons ev evs self :
  run (ev :: evs) self
  = match driver_step ev self with
    | (Ok o, self') =>
        let '(os, e, self'') := run evs self' in (o :: os, e, self'')
    | (Raise e, self') => ([], Some e, self')
    end.
Proof. reflexivity. Qed.

Lemma deliver_after_put self query_time_ms buf x :
  out_buffer self = buf ++ [x] ->
  (length buf <= 1)%nat ->
  match buf with
  | [] => true
  | (_, next_out_time_ms) :: _ => Qle_bool next_out_time_ms query_time_ms
  end = true ->
  (length (out_buffer (snd (get_ctrl_signal query_time_ms self))) <= 1)%nat.
Proof.
  intros Hbuf Hlen Hdue.
  unfold get_ctrl_signal, bind, get, ret, modify. rewrite Hbuf.
  destruct buf as [|[o0 t0] rest]; simpl.
  - destruct x as [o1 t1].
    destruct (Qle_bool t1 query_time_ms); simpl; [lia|].
    rewrite Hbuf. simpl. lia.
  - rewrite Hdue. simpl in *. rewrite length_app. simpl. lia.
Qed.

(** One query-then-deliver step under "when idle" sampling. *)
Lemma query_deliver_step self t state_dict :
  sampling self = PyStr "when idle" ->
  (length (out_buffer self) <= 1)%nat ->
  match driver_step (Query t state_dict) self with
  | (Raise _, self1) => out_buffer self1 = out_buffer self
  | (Ok _, self1) =>
      sampling self1 = PyStr "when idle"
      /\ exists o self2,
           driver_step (Deliver t) self1 = (Ok o, self2)
           /\ sampling self2 = PyStr "when idle"
           /\ (length (out_buffer self2) <= 1)%nat
  end.
Proof.
  intros Hs Hlen.
  assert (Hdeliver : forall self1,
            sampling self1 = PyStr "when idle" ->
            (length (out_buffer (snd (get_ctrl_signal t self1))) <= 1)%nat ->
            exists o self2,
              driver_step (Deliver t) self1 = (Ok o, self2)
              /\ sampling self2 = PyStr "when idle"
              /\ (length (out_buffer self2) <= 1)%nat).
  { intros self1 Hs1 Hl. unfold driver_step, bind, ret.
    destruct (get_ctrl_signal_returns self1 t) as [o Ho].
    destruct (get_ctrl_signal t self1) as [r s2] eqn:Hg. simpl in *.
    subst r. eexists _, s2. split; [reflexivity|]. split; [|exact Hl].
    destruct (get_ctrl_signal_state self1 t) as [E|(e & rest & _ & E)];
      rewrite Hg in E; simpl in E; subst s2; exact Hs1. }
  unfold driver_step at 1. unfold bind, get, ret.
  destruct (is_sampling_now t self) as [[b|e] s0] eqn:Hnow.
  - assert (Hs0 : s0 = snd (is_sampling_now t self))
      by (rewrite Hnow; reflexivity).
    assert (Hbuf0 : out_buffer s0 = out_buffer self
                    /\ sampling s0 = PyStr "when idle").
    { destruct (is_sampling_now_state self t) as [E|[f E]];
        rewrite E in Hs0; subst s0; auto. }
    destruct Hbuf0 as [Hbuf0 Hsamp0].
    destruct b.
    + pose proof (is_sampling_now_true_idle _ _ _ Hs Hnow) as Hidle.
      destruct (process state_dict t (subclass s0))
        as [[[out out_time_ms]|e] u] eqn:Hp.
      * rewrite (put_state_returns _ _ _ _ _ _ Hp).
        split; [exact Hsamp0|].
        apply Hdeliver; [exact Hsamp0|].
        eapply (deliver_after_put _ t (out_buffer self)).
        -- simpl. rewrite Hbuf0. reflexivity.
        -- exact Hlen.
        -- exact Hidle.
      * rewrite (put_state_raises _ _ _ _ _ Hp). simpl. exact Hbuf0.
    + split; [exact Hsamp0|]. apply Hdeliver; [exact Hsamp0|].
      destruct (get_ctrl_signal_length s0 t) as [Hle _].
      rewrite Hbuf0 in Hle. lia.
  - assert (Hs0 : s0 = snd (is_sampling_now t self))
      by (rewrite Hnow; reflexivity).
    destruct (is_sampling_now_state self t) as [E|[f E]];
      rewrite E in Hs0; subst s0; reflexivity.
Qed.

(** X6.  Under "when idle" sampling, [is_sampling_now] returns true only
    when the processor is idle, and a driver that delivers after each query
    never has more than one output pending between its steps. *)
Theorem when_idle_one_pending self steps :
  sampling self = PyStr "when idle" ->
  (length (out_buffer self) <= 1)%nat ->
  (forall query_time_ms self',
     is_sampling_now query_time_ms self = (Ok true, self') ->
     _is_currently_idle query_time_ms self = true)
  /\ (length (out_buffer (snd (run (query_deliver steps) self))) <= 1)%nat.
Proof.
  intros Hs Hlen. split.
  - intros query_time_ms self'. apply is_sampling_now_true_idle, Hs.
  - revert self Hs Hlen.
    induction steps as [|[t state_dict] steps IH]; intros self Hs Hlen.
    + exact Hlen.
    + change (query_deliver ((t, state_dict) :: steps))
        with (Query t state_dict :: Deliver t :: query_deliver steps).
      rewrite run_cons.
      pose proof (query_deliver_step self t state_dict Hs Hlen) as Hstep.
      destruct (driver_step (Query t state_dict) self) as [[o|e] s1].
      * destruct Hstep as (_ & o2 & s2 & Hd & Hs2 & Hl2).
        rewrite run_cons, Hd. specialize (IH s2 Hs2 Hl2).
        destruct (run (query_deliver steps) s2) as [[os e] s3].
        exact IH.
      * simpl. rewrite Hstep. exact Hlen.
Qed.

(** What [is_sampling_now] returns under "fixed" sampling. *)
Lemma is_sampling_now_fixed_result self query_time_ms :
  sampling self = PyStr "fixed" ->
  ~ sample_period_ms self == 0 ->
  is_sampling_now query_time_ms self
  = (Ok (isclose (floor_mod query_time_ms (sample_period_ms self)) 0), self).
Proof.
  intros Hfixed Hp.
  unfold is_sampling_now, bind, get, lift, ret. rewrite Hfixed. simpl.
  rewrite (py_mod_nonzero _ _ Hp).
  destruct (isclose _ 0); reflexivity.
Qed.

(** X7.  The processor is idle at [t] exactly when [get_ctrl_signal(t)]
    would hold nothing back: the buffer is empty or its head is released.
    With the buffer unchanged, a processor idle at [t] is idle at every
    later time. *)
Theorem idle_iff_nothing_held self query_time_ms :
  (_is_currently_idle query_time_ms self = true
   <-> out_buffer self = []
       \/ exists out, fst (get_ctrl_signal query_time_ms self) = Ok (Some out))
  /\ (forall later_ms,
        query_time_ms <= later_ms ->
        _is_currently_idle query_time_ms self = true ->
        _is_currently_idle later_ms self = true).
Proof.
  unfold _is_currently_idle, get_ctrl_signal, bind, get, ret, modify.
  destruct (out_buffer self) as [|[out out_time] rest]; simpl.
  - split; [|auto]. split; auto.
  - split.
    + destruct (Qle_bool out_time query_time_ms); simpl.
      * split; [eauto | reflexivity].
      * split; [discriminate|].
        intros [H|[o H]]; discriminate.
    + intros later_ms Hle Hdue. apply Qle_bool_iff.
      apply Qle_bool_iff in Hdue. eapply Qle_trans; eauto.
Qed.

(** X8.  With a non-zero period, every integer multiple of the period is on
    the sampling schedule: under "fixed" sampling [is_sampling_now] returns
    true there, and under "when idle" sampling it returns whether the
    processor is idle and raises the missed-sample flag if it is not. *)
Theorem multiples_are_on_schedule self (k : Z) :
  ~ sample_period_ms self == 0 ->
  let query_time_ms := inject_Z k * sample_period_ms self in
  on_schedule query_time_ms self = true
  /\ (sampling self = PyStr "fixed" ->
      is_sampling_now query_time_ms self = (Ok true, self))
  /\ (sampling self = PyStr "when idle" ->
      is_sampling_now query_time_ms self
      = (Ok (_is_currently_idle query_time_ms self),
         set_needs_off_schedule_sample
           (negb (_is_currently_idle query_time_ms self)) self)).
Proof.
  intros Hp query_time_ms.
  pose proof (floor_mod_multiple k _ Hp) as Hr. fold query_time_ms in Hr.
  assert (Hon : Qeq_bool (floor_mod query_time_ms (sample_period_ms self)) 0
                = true) by (apply Qeq_bool_iff, Hr).
  split; [|split].
  - unfold on_schedule. rewrite (py_mod_nonzero _ _ Hp). exact Hon.
  - intros Hfixed.
    rewrite (is_sampling_now_fixed_result self query_time_ms Hfixed Hp).
    f_equal. f_equal. apply isclose_zero.
    rewrite Hr. discriminate.
  - intros Hidle. rewrite (is_sampling_now_when_idle _ _ Hidle).
    rewrite (py_mod_nonzero _ _ Hp), Hon.
    destruct (_is_currently_idle query_time_ms self); reflexivity.
Qed.

(** X9.  The tolerance of "fixed" sampling is one-sided.  With a positive
    period and a query time that is not negative, the remainder
    [t mod period] lies in [0, period), and a time that falls short of a
    multiple of the period by [eps], with [period - eps] at least twice the
    tolerance [1e-08], is not a sampling time, however small [eps] is. *)
Theorem fixed_tolerance_one_sided self query_time_ms :
  sampling self = PyStr "fixed" ->
  0 < sample_period_ms self ->
  0 <= query_time_ms ->
  let r := floor_mod query_time_ms (sample_period_ms self) in
  0 <= r /\ r < sample_period_ms self
  /\ (forall (k : Z) (eps : Q),
        0 < eps ->
        2 * atol <= sample_period_ms self - eps ->
        query_time_ms == inject_Z k * sample_period_ms self - eps ->
        is_sampling_now query_time_ms self = (Ok false, self)).
Proof.
  intros Hfixed Hpos _ r.
  assert (Hp : ~ sample_period_ms self == 0)
    by (intros E; rewrite E in Hpos; discriminate Hpos).
  destruct (floor_mod_range query_time_ms _ Hpos) as [Hr0 Hrp].
  fold r in Hr0, Hrp.
  pose proof (is_sampling_now_fixed_result self query_time_ms Hfixed Hp)
    as Heq.
  fold r in Heq.
  split; [exact Hr0|]. split; [exact Hrp|].
  intros k eps Heps Htol Ht. rewrite Heq. f_equal. f_equal.
  destruct (isclose r 0) eqn:Hc; [|reflexivity].
  apply isclose_zero in Hc. rewrite (Qabs_pos _ Hr0) in Hc.
  assert (Hatol : 0 < atol) by reflexivity.
  assert (Hr : r == sample_period_ms self - eps).
  { apply (floor_mod_unique _ _ _ (k - 1)); [exact Hpos | | lra | lra].
    rewrite Ht. unfold Z.sub. rewrite inject_Z_plus, inject_Z_opp.
    change (inject_Z 1) with 1. ring. }
  rewrite Hr in Hc. lra.
Qed.

Lemma after_call_flag c self :
  is_Some (_needs_off_schedule_sample self) ->
  is_Some (_needs_off_schedule_sample (after_call c self)).
Proof.
  intros Hf.
  destruct c as [state_dict sample_time_ms|query_time_ms|query_time_ms];
    simpl.
  - destruct (process state_dict sample_time_ms (subclass self))
      as [[[out out_time_ms]|e] u] eqn:Hp.
    + rewrite (put_state_returns _ _ _ _ _ _ Hp). simpl. eauto.
    + rewrite (put_state_raises _ _ _ _ _ Hp). exact Hf.
  - destruct (get_ctrl_signal_state self query_time_ms)
      as [->|(e & rest & _ & ->)]; exact Hf.
  - destruct (is_sampling_now_state self query_time_ms) as [->|[f ->]];
      [exact Hf | simpl; eauto].
Qed.

Lemma after_calls_flag cs self :
  is_Some (_needs_off_schedule_sample self) ->
  is_Some (_needs_off_schedule_sample (after_calls cs self))
  /\ sample_period_ms (after_calls cs self) = sample_period_ms self.
Proof.
  revert self. induction cs as [|c cs IH]; intros self Hf.
  - auto.
  - unfold after_calls. simpl. fold (after_calls cs (after_call c self)).
    destruct (IH _ (after_call_flag c self Hf)) as [H1 H2].
    split; [exact H1|]. rewrite H2.
    apply (after_call_config c self).
Qed.

(** X10.  The unset missed-sample flag is a matter of the first call only.
    Once a [put_state] has returned, or a query has come on the schedule
    under "when idle" sampling, the flag is set and stays set through every
    later call, and with a non-zero period [is_sampling_now] returns a
    Boolean at every time. *)
Theorem flag_stays_set self c cs query_time_ms :
  ~ sample_period_ms self == 0 ->
  is_Some (_needs_off_schedule_sample self)
  \/ (exists state_dict sample_time_ms,
        c = CallPutState state_dict sample_time_ms
        /\ fst (put_state state_dict sample_time_ms self) = Ok tt)
  \/ (exists first_time_ms,
        c = CallIsSamplingNow first_time_ms
        /\ sampling self = PyStr "when idle"
        /\ on_schedule first_time_ms self = true) ->
  is_Some (_needs_off_schedule_sample (after_calls (c :: cs) self))
  /\ exists b self',
       is_sampling_now query_time_ms (after_calls (c :: cs) self)
       = (Ok b, self').
Proof.
  intros Hp Hset.
  assert (Hc : is_Some (_needs_off_schedule_sample (after_call c self))).
  { destruct Hset as [Hf|[(state_dict & sample_time_ms & -> & Hput)
                         |(first_time_ms & -> & Hs & Hon)]].
    - apply after_call_flag, Hf.
    - simpl.
      destruct (process state_dict sample_time_ms (subclass self))
        as [[[out out_time_ms]|e] u] eqn:Hproc.
      + rewrite (put_state_returns _ _ _ _ _ _ Hproc). simpl. eauto.
      + rewrite (put_state_raises _ _ _ _ _ Hproc) in Hput. discriminate.
    - simpl. rewrite (is_sampling_now_when_idle _ _ Hs).
      unfold on_schedule in Hon.
      destruct (py_mod first_time_ms (sample_period_ms self)) as [r|e];
        [|discriminate].
      rewrite Hon.
      destruct (_is_currently_idle first_time_ms self); simpl; eauto. }
  unfold after_calls. simpl. fold (after_calls cs (after_call c self)).
  destruct (after_calls_flag cs _ Hc) as [[f Hf] Hperiod].
  split; [eauto|].
  assert (Hp' : ~ sample_period_ms (after_calls cs (after_call c self)) == 0).
  { rewrite Hperiod. destruct (after_call_config c self) as (_ & _ & ->).
    exact Hp. }
  destruct (after_calls cs (after_call c self))
    as [buf period samp proc flag u].
  simpl in Hf, Hp'. subst flag.
  unfold is_sampling_now, bind, get, lift, ret, modify,
    get_needs_off_schedule_sample.
  simpl. rewrite (py_mod_nonzero _ _ Hp').
  destruct (py_eq_str samp "fixed").
  - destruct (isclose _ 0); eauto.
  - destruct (py_eq_str samp "when idle"); [|eauto].
    destruct (Qeq_bool _ 0).
    + destruct (_is_currently_idle _ _); eauto.
    + destruct f; eauto.
Qed.

End LatencyIOProcessorFurther.

(** ** RecordOnlyProcessor *)

Section RecordOnlyProcessorProperties.

Context {Rng StateDict : Type}.

Implicit Types
  (self : LatencyIOProcessor (Rng := Rng)
            (CtrlSignal := gmap string (@pyobj Rng)) (U := unit)).

Lemma Qle_bool_refl (x : Q) : Qle_bool x x = true.
Proof. apply Qle_bool_iff, Qle_refl. Qed.

(** One query-then-deliver step of a [RecordOnlyProcessor] whose buffer is
    empty. *)
Lemma RecordOnlyProcessor_step self t (state_dict : StateDict) :
  out_buffer self = [] ->
  match driver_step
          (io_impl := RecordOnlyProcessor (Rng := Rng)
                        (StateDict := StateDict))
          (Query t state_dict) self with
  | (Raise _, self1) => out_buffer self1 = []
  | (Ok o, self1) =>
      exists on_sched idle sampled self2,
        o = OQuery t on_sched idle sampled
        /\ driver_step
             (io_impl := RecordOnlyProcessor (Rng := Rng)
                           (StateDict := StateDict))
             (Deliver t) self1
           = (Ok (ODeliver t (if sampled then Some ∅ else None)), self2)
        /\ out_buffer self2 = []
  end.
Proof.
  intros Hbuf. unfold driver_step at 1. unfold bind, get, ret.
  destruct (is_sampling_now t self) as [[b|e] s0] eqn:Hnow.
  - assert (Hs0 : s0 = snd (is_sampling_now t self))
      by (rewrite Hnow; reflexivity).
    assert (Hbuf0 : out_buffer s0 = []).
    { destruct (is_sampling_now_state self t) as [E|[f E]];
        rewrite E in Hs0; subst s0; exact Hbuf. }
    destruct b.
    + rewrite (put_state_returns
                 (io_impl := RecordOnlyProcessor (Rng := Rng)
                               (StateDict := StateDict))
                 s0 state_dict t ∅ t (subclass s0) eq_refl).
      rewrite Hbuf0. simpl.
      eexists _, _, true, _. split; [reflexivity|].
      unfold driver_step, get_ctrl_signal, bind, get, ret, modify. simpl.
      replace (if py_eq_str (processing s0) "serial" then t else t)
        with t by (destruct (py_eq_str _ _); reflexivity).
      rewrite Qle_bool_refl. simpl. split; reflexivity.
    + eexists _, _, false, s0. split; [reflexivity|].
      unfold driver_step, get_ctrl_signal, bind, get, ret, modify.
      rewrite Hbuf0. simpl. split; reflexivity.
  - assert (Hs0 : s0 = snd (is_sampling_now t self))
      by (rewrite Hnow; reflexivity).
    destruct (is_sampling_now_state self t) as [E|[f E]];
      rewrite E in Hs0; subst s0; exact Hbuf.
Qed.

(** X11.  A [RecordOnlyProcessor] has no latency.  Driven by query-then-
    deliver steps from an empty buffer, under any policies, it releases an
    empty output in exactly the steps in which a sample was taken, and
    nothing stays buffered. *)
Theorem RecordOnlyProcessor_no_latency self
    (steps : list (Q * StateDict)) :
  out_buffer self = [] ->
  let r := run (io_impl := RecordOnlyProcessor (Rng := Rng)
                             (StateDict := StateDict))
             (query_deliver steps) self in
  out_buffer (snd r) = []
  /\ deliveries_of (fst (fst r))
     = map (fun sampled : bool => if sampled then Some ∅ else None)
         (samples_of (fst (fst r))).
Proof.
  revert self. induction steps as [|[t state_dict] steps IH];
    intros self Hbuf.
  - simpl. auto.
  - change (query_deliver ((t, state_dict) :: steps))
      with (Query t state_dict :: Deliver t :: query_deliver steps).
    cbv zeta. rewrite run_cons.
    pose proof (RecordOnlyProcessor_step self t state_dict Hbuf) as Hstep.
    destruct (driver_step (Query t state_dict) self) as [[o|e] s1].
    + destruct Hstep as (on_sched & idle & sampled & s2 & -> & Hd & Hb2).
      rewrite run_cons, Hd. specialize (IH s2 Hb2). cbv zeta in IH.
      destruct (run (query_deliver steps) s2) as [[os e] s3].
      simpl in *. destruct IH as [IH1 IH2].
      split; [exact IH1|]. rewrite IH2. reflexivity.
    + simpl. auto.
Qed.

End RecordOnlyProcessorProperties.

(** ** The further properties at concrete inputs *)

Lemma history_stays_aligned_witness :
  history_aligned
    (self_block
       (after_process_calls (block_impl := MyLoopComponent)
          [(42, 2, {[ "measurement_time" := PyFloat 1 ]});
           (7, 5, ∅);
           (-1, 9, {[ "measurement_time" := PyFloat 8 ]})]
          {| self_block := test_block; rng := tt |})).
Proof.
  apply history_stays_aligned.
  exists [], [], []. repeat split.
Defined.

Lemma process_without_history_witness :
  let b : ProcessingBlock (Rng := unit) (Output := Q) :=
    {| delay := PyDelay (ConstantDelay 5); save_history := PyBool false;
       t := None; out_t := None; values := None |} in
  t b = None /\ out_t b = None /\ values b = None
  /\ self_block
       (snd (process_block (block_impl := MyLoopComponent) 42 2
               {[ "measurement_time" := PyFloat 1 ]}
               {| self_block := b; rng := tt |}))
     = b.
Proof.
  cbv zeta.
  apply (process_without_history (block_impl := MyLoopComponent)
           {[ "delay" := PyDelay (ConstantDelay 5) ]}).
  - vm_compute. reflexivity.
  - vm_compute. reflexivity.
Defined.

Lemma process_truthy_save_history_witness :
  let b : ProcessingBlock (Rng := unit) (Output := Q) :=
    {| delay := PyDelay (ConstantDelay 5); save_history := PyFloat 1;
       t := None; out_t := None; values := None |} in
  exists d,
    delay b = PyDelay d
    /\ t b = None
    /\ process_block (block_impl := MyLoopComponent) 42 2
         {[ "measurement_time" := PyFloat 1 ]}
         {| self_block := b; rng := tt |}
       = (Raise (AttributeError "t"),
          {| self_block := b; rng := snd (compute d tt) |}).
Proof.
  cbv zeta.
  apply (process_truthy_save_history (block_impl := MyLoopComponent)
           {[ "delay" := PyDelay (ConstantDelay 5);
              "save_history" := PyFloat 1 ]}
           _ tt 42 2 {[ "measurement_time" := PyFloat 1 ]} (42 + 1)).
  - vm_compute. reflexivity.
  - vm_compute. reflexivity.
  - vm_compute. reflexivity.
  - vm_compute. reflexivity.
Defined.

Lemma when_idle_one_pending_witness :
  let steps : list (Q * gmap string Q) :=
    [(0, {[ "in" := 42 ]}); (1, {[ "in" := -1 ]});
     (12 # 10, {[ "in" := 66 ]}); (2, {[ "in" := -1 ]});
     (24 # 10, {[ "in" := 1847 ]})] in
  (length
     (out_buffer
        (snd (run (query_deliver steps)
                (MyDelayCL_new "when idle" "serial")))) <= 1)%nat.
Proof.
  cbv zeta.
  apply (when_idle_one_pending (MyDelayCL_new "when idle" "serial")).
  - reflexivity.
  - simpl. lia.
Defined.

Lemma idle_iff_nothing_held_witness :
  _is_currently_idle (12 # 10) (after_first_sample "fixed" "serial") = true
  /\ _is_currently_idle 2 (after_first_sample "fixed" "serial") = true.
Proof.
  assert (H : _is_currently_idle (12 # 10)
                (after_first_sample "fixed" "serial") = true)
    by (vm_compute; reflexivity).
  split; [exact H|].
  apply (proj2 (idle_iff_nothing_held
                  (after_first_sample "fixed" "serial") (12 # 10)) 2).
  - vm_compute. discriminate.
  - exact H.
Defined.

Lemma multiples_are_on_schedule_witness :
  is_sampling_now (inject_Z 3 * 1) (after_first_sample "fixed" "serial")
  = (Ok true, after_first_sample "fixed" "serial").
Proof.
  destruct (multiples_are_on_schedule
              (after_first_sample "fixed" "serial") 3)
    as (_ & Hfixed & _).
  - vm_compute. discriminate.
  - apply Hfixed. reflexivity.
Defined.

Lemma fixed_tolerance_one_sided_witness :
  is_sampling_now (9999999 # 10000000) (MyDelayCL_new "fixed" "parallel")
  = (Ok false, MyDelayCL_new "fixed" "parallel").
Proof.
  destruct (fixed_tolerance_one_sided (MyDelayCL_new "fixed" "parallel")
              (9999999 # 10000000) eq_refl eq_refl)
    as (_ & _ & Hshort).
  - vm_compute. discriminate.
  - apply (Hshort 1%Z (1 # 10000000)).
    + reflexivity.
    + vm_compute. discriminate.
    + vm_compute. reflexivity.
Defined.

Lemma flag_stays_set_witness :
  exists b self',
    is_sampling_now (12 # 10)
      (after_calls
         [CallIsSamplingNow 0; CallPutState {[ "in" := 42 ]} 0;
          CallGetCtrlSignal 0; CallIsSamplingNow 1]
         (MyDelayCL_new "when idle" "serial"))
    = (Ok b, self').
Proof.
  apply (flag_stays_set (MyDelayCL_new "when idle" "serial")
           (CallIsSamplingNow 0)
           [CallPutState {[ "in" := 42 ]} 0; CallGetCtrlSignal 0;
            CallIsSamplingNow 1]
           (12 # 10)).
  - vm_compute. discriminate.
  - right. right. exists 0. split; [reflexivity|].
    split; [reflexivity | vm_compute; reflexivity].
Defined.

Lemma RecordOnlyProcessor_no_latency_witness :
  let self : LatencyIOProcessor (Rng := unit)
               (CtrlSignal := gmap string (@pyobj unit)) (U := unit) :=
    {| out_buffer := []; sample_period_ms := 1;
       sampling := PyStr "when idle"; processing := PyStr "serial";
       _needs_off_schedule_sample := None; subclass := tt |} in
  let r := run (io_impl := RecordOnlyProcessor (StateDict := unit))
             (query_deliver [(0, tt); (1, tt); (3 # 2, tt); (2, tt)])
             self in
  out_buffer (snd r) = []
  /\ deliveries_of (fst (fst r))
     = map (fun sampled : bool => if sampled then Some ∅ else None)
         (samples_of (fst (fst r))).
Proof.
  cbv zeta.
  apply (RecordOnlyProcessor_no_latency (Rng := unit) (StateDict := unit)).
  reflexivity.
Defined.

(** ** The light-opsin registry *)

Section LightOpsinRegistryProperties.

Context {NeuronGroup Opsin Light Synapses : Type}.
Context `{Countable NeuronGroup, Countable Opsin, Countable Light}.
Context (new_light_prop_syn :
           Light -> Opsin -> NeuronGroup -> result Synapses).

Implicit Types
  (self registry stored :
     LightOpsinRegistry (NeuronGroup := NeuronGroup) (Opsin := Opsin)
       (Light := Light) (Synapses := Synapses)).

(** With no neuron group in either dictionary, a registration returns and
    leaves the registry as it was. *)
Lemma register_records_nothing c self :
  opsins_for_ng self = ∅ ->
  lights_for_ng self = ∅ ->
  register new_light_prop_syn c self = (Ok tt, self).
Proof.
  intros Ho Hl. destruct self as [opsins lights syns net].
  simpl in Ho, Hl. subst opsins lights.
  destruct c as [opsin ng|light ng]; simpl;
    unfold register_opsin, register_light, bind, get, ret, modify,
      opsins_for_ng_get_add, lights_for_ng_get_add;
    simpl; repeat (rewrite lookup_empty; simpl); rewrite elements_empty;
    reflexivity.
Qed.

(** X13.  [register_opsin] and [register_light] add their argument to the
    set returned by [dict.get(ng, set())], which the dictionary does not
    hold when the neuron group has no entry.  So on a registry whose two
    dictionaries are empty, as its constructor leaves them, every
    registration returns without recording anything: after any sequence of
    registrations the registry is unchanged, and no light has been
    connected to any opsin. *)
Theorem registrations_record_nothing cs self :
  opsins_for_ng self = ∅ ->
  lights_for_ng self = ∅ ->
  after_registrations new_light_prop_syn cs self = self
  /\ Forall (fun c => register new_light_prop_syn c self = (Ok tt, self)) cs.
Proof.
  intros Ho Hl. split.
  - induction cs as [|c cs IH]; [reflexivity|].
    unfold after_registrations. simpl.
    rewrite (register_records_nothing c self Ho Hl). exact IH.
  - apply Forall_forall. intros c _.
    apply register_records_nothing; assumption.
Qed.

(** X14.  [lor_for_sim] gets the registry of a simulator or creates it: it
    returns the registry now stored under the simulator, a fresh one if
    there was none and the stored one otherwise; the registries of other
    simulators are untouched, and asking again returns the same registry
    and changes nothing. *)
Theorem lor_for_sim_get_or_create {CLSimulator : Type}
    `{Countable CLSimulator} (sim : CLSimulator)
    (registries : gmap CLSimulator LightOpsinRegistry) :
  exists registry (registries' : gmap CLSimulator LightOpsinRegistry),
    lor_for_sim (Some sim) registries = Some (registry, registries')
    /\ registries' !! sim = Some registry
    /\ (forall other, other <> sim ->
        registries' !! other = registries !! other)
    /\ (registries !! sim = None -> registry = LightOpsinRegistry_new)
    /\ (forall stored,
          registries !! sim = Some stored ->
          registry = stored /\ registries' = registries)
    /\ lor_for_sim (Some sim) registries' = Some (registry, registries').
Proof.
  unfold lor_for_sim.
  destruct (registries !! sim) as [stored|] eqn:Hsim.
  - exists stored, registries. rewrite Hsim.
    repeat split; try reflexivity; try congruence.
    rewrite Hsim. reflexivity.
  - exists LightOpsinRegistry_new,
      (<[ sim := LightOpsinRegistry_new ]> registries).
    rewrite !lookup_insert_eq.
    repeat split; try reflexivity; try discriminate.
    intros other Hne. apply lookup_insert_ne. congruence.
Qed.

End LightOpsinRegistryProperties.

(** ** Electrode signals *)

Section SignalProperties.

Context {ElectrodeGroup Coords : Type}.
Context `{EqDecision ElectrodeGroup}.
Context (group_name : ElectrodeGroup -> string).
Context (group_coords : ElectrodeGroup -> Coords).

Implicit Types
  (self : Signal (ElectrodeGroup := ElectrodeGroup) (Coords := Coords)).

Lemma init_for_electrode_group_bound self eg other :
  electrode_group self = Some eg ->
  (other <> eg ->
   exists msg,
     init_for_electrode_group group_name group_coords other self
     = (Raise (ValueError msg), self))
  /\ electrode_group
       (snd (init_for_electrode_group group_name group_coords other self))
     = Some eg
  /\ name (snd (init_for_electrode_group group_name group_coords other self))
     = name self
  /\ (_coords self = Some (group_coords eg) ->
      _coords
        (snd (init_for_electrode_group group_name group_coords other self))
      = Some (group_coords eg)).
Proof.
  intros Hg. unfold init_for_electrode_group. rewrite Hg.
  destruct (bool_decide (eg <> other)) eqn:Hd.
  - apply bool_decide_eq_true in Hd. simpl.
    repeat split; eauto.
  - apply bool_decide_eq_false in Hd.
    assert (eg = other) by (destruct (decide (eg = other)); tauto).
    subst other. simpl. repeat split; auto. congruence.
Qed.

(** X16.  A signal belongs to one electrode group.  The first
    initialisation of a fresh signal binds it to the group and takes the
    group's coordinates; whatever initialisations are tried afterwards, the
    signal keeps that group, its coordinates and its name, and an
    initialisation for any other group raises [ValueError] and changes
    nothing. *)
Theorem signal_keeps_its_group self eg egs :
  electrode_group self = None ->
  let bound :=
    after_inits group_name group_coords (eg :: egs) self in
  electrode_group bound = Some eg
  /\ _coords bound = Some (group_coords eg)
  /\ name bound = name self
  /\ (forall other,
        other <> eg ->
        exists msg,
          init_for_electrode_group group_name group_coords other bound
          = (Raise (ValueError msg), bound)).
Proof.
  intros Hnone bound. subst bound. unfold after_inits. simpl.
  assert (Hfirst :
    snd (init_for_electrode_group group_name group_coords eg self)
    = {| name := name self; electrode_group := Some eg;
         _coords := Some (group_coords eg) |}).
  { unfold init_for_electrode_group. rewrite Hnone. reflexivity. }
  rewrite Hfirst.
  set (s1 := {| name := name self; electrode_group := Some eg;
                _coords := Some (group_coords eg) |}).
  assert (Hinv : electrode_group s1 = Some eg
                 /\ _coords s1 = Some (group_coords eg)
                 /\ name s1 = name self) by (subst s1; simpl; auto).
  clearbody s1. clear Hfirst.
  revert s1 Hinv. induction egs as [|other egs IH]; intros s1 (Hg & Hc & Hn).
  - simpl. repeat split; auto.
    intros other Hne.
    apply (init_for_electrode_group_bound s1 eg other Hg), Hne.
  - simpl. apply IH.
    destruct (init_for_electrode_group_bound s1 eg other Hg)
      as (_ & Hg' & Hn' & Hc').
    repeat split; [exact Hg' | exact (Hc' Hc) | congruence].
Qed.

End SignalProperties.

Lemma registrations_record_nothing_witness :
  after_registrations (NeuronGroup := nat) (Opsin := nat) (Light := nat)
    (fun light opsin ng => Ok (light, opsin, ng))
    [RegisterOpsin 1%nat 0%nat; RegisterLight 2%nat 0%nat;
     RegisterOpsin 3%nat 0%nat]
    LightOpsinRegistry_new
  = LightOpsinRegistry_new.
Proof.
  apply (registrations_record_nothing (NeuronGroup := nat) (Opsin := nat)
           (Light := nat) (fun light opsin ng => Ok (light, opsin, ng))).
  - reflexivity.
  - reflexivity.
Defined.

Lemma signal_keeps_its_group_witness :
  let self : Signal (ElectrodeGroup := nat) (Coords := list (Q * Q * Q)) :=
    {| name := "mus"; electrode_group := None; _coords := None |} in
  let coords_of (eg : nat) : list (Q * Q * Q) :=
    [(0, 0, inject_Z (Z.of_nat eg))] in
  let bound :=
    after_inits (fun _ => "probe") coords_of [1; 2; 1; 3]%nat self in
  electrode_group bound = Some 1%nat
  /\ _coords bound = Some (coords_of 1%nat)
  /\ name bound = name self
  /\ (forall other,
        other <> 1%nat ->
        exists msg,
          init_for_electrode_group (fun _ => "probe") coords_of other bound
          = (Raise (ValueError msg), bound)).
Proof.
  cbv zeta.
  apply (signal_keeps_its_group (ElectrodeGroup := nat)
           (fun _ => "probe")
           (fun eg : nat => [(0, 0, inject_Z (Z.of_nat eg))])
           {| name := "mus"; electrode_group := None; _coords := None |}
           1%nat [2; 1; 3]%nat).
  reflexivity.
Defined.
